(** * Smart-rehab: the per-frame exercise evaluation engine

    A shallow embedding of [evaluateFrame] and its five analyzers
    ([headLogic], [fingerLogic], [handLogic], [legLogic],
    [shoulderLogic]) together with the two geometric helpers
    ([distance], [angleDeg]) and the part of the patient page's frame
    loop that consumes a result.

    JavaScript numbers are IEEE-754 binary64 values: they are modelled
    by Rocq's primitive [float], whose operations are the same binary64
    operations; what the proofs need of them is derived from their
    specification over [spec_float].  [Math.hypot], [Math.asin],
    [Math.acos] and [toFixed] are library functions: the engine takes
    them from a [Runtime], and the properties hold for every runtime.
    The repetition counter only ever holds small integers
    (the caller starts it at 0 and the engine adds 1), so it is modelled
    by [Z].  A property read on [undefined] raises a [TypeError]; this
    is the only way the engine can throw, and it is modelled by the
    [Completion] type. *)

From Stdlib Require Import Floats ZArith Ascii String List Bool Lia DecimalString.
Import ListNotations.

Set Warnings "-inexact-float".

Local Open Scope float_scope.

(** ** JavaScript values the engine works with *)

(** MediaPipe's [NormalizedLandmark]; the engine reads [x] and [y] only. *)
Record NormalizedLandmark : Type := mkLandmark { x : float; y : float }.

(** [PoseLandmarkerResult] and [HandLandmarkerResult]: the engine reads
    the [landmarks] field only (one landmark list per detected subject). *)
Record LandmarkerResult : Type :=
  mkLandmarkerResult { landmarks : list (list NormalizedLandmark) }.

Definition PoseLandmarkerResult : Type := LandmarkerResult.
Definition HandLandmarkerResult : Type := LandmarkerResult.

(** The caller-owned counter state [{ rep, phase }]. *)
Module State.
Record t : Type := mk { rep : Z; phase : string }.
End State.

(** The per-frame result [{ rep, status, quality, phase? }]. *)
Module Result.
Record t : Type :=
  mk { rep : Z; status : string; quality : float; phase : option string }.
End Result.

Inductive JsError : Type := TypeError.

(** How a call completes: with a value, or by throwing. *)
Inductive Completion (A : Type) : Type :=
| Normal (a : A)
| Throw (e : JsError).

Arguments Normal {A} a.
Arguments Throw {A} e.

Definition bind {A B : Type} (c : Completion A) (k : A -> Completion B)
  : Completion B :=
  match c with
  | Normal a => k a
  | Throw e => Throw e
  end.

Notation "v <- c ;; k" := (bind c (fun v => k))
  (at level 61, c at next level, right associativity).

(** [lm[i]]: [undefined] ([None]) when [i] is out of range. *)
Definition item (lm : list NormalizedLandmark) (i : nat)
  : option NormalizedLandmark := nth_error lm i.

(** [p.x] and [p.y]: reading a property of [undefined] throws. *)
Definition get_x (p : option NormalizedLandmark) : Completion float :=
  match p with
  | Some l => Normal (x l)
  | None => Throw TypeError
  end.

Definition get_y (p : option NormalizedLandmark) : Completion float :=
  match p with
  | Some l => Normal (y l)
  | None => Throw TypeError
  end.

(** ** Number semantics *)

(** A number is falsy when it is [+0], [-0] or [NaN]. *)
Definition falsy (v : float) : bool := is_zero v || is_nan v.

(** [v || d] on numbers. *)
Definition or_else (v d : float) : float := if falsy v then d else v.

(** [a > b] and [a >= b]. *)
Definition gtb (a b : float) : bool := b <? a.
Definition geb (a b : float) : bool := b <=? a.

(** [Math.max(a, b)] and [Math.min(a, b)]: [NaN] if either argument is
    [NaN]; [+0] is larger than [-0]. *)
Definition Math_max (a b : float) : float :=
  if is_nan a || is_nan b then nan
  else if a <? b then b
  else if b <? a then a
  else if get_sign a then b else a.

Definition Math_min (a b : float) : float :=
  if is_nan a || is_nan b then nan
  else if a <? b then a
  else if b <? a then b
  else if get_sign a then a else b.

Definition Math_abs (a : float) : float := abs a.

Definition Math_PI : float := 3.141592653589793.

(** The number of a small array length. *)
Definition of_nat (n : nat) : float := of_uint63 (Uint63.of_Z (Z.of_nat n)).

(** The library functions whose values ECMAScript leaves to the
    implementation ([Math.hypot], [Math.asin], [Math.acos]) and the
    number formatter [toFixed]: the engine is parameterised by them. *)
Record Runtime : Type := mkRuntime {
  Math_hypot : float -> float -> float;
  Math_asin : float -> float;
  Math_acos : float -> float;
  toFixed : float -> nat -> string
}.

(** [s.includes(t)]. *)
Fixpoint includes (s t : string) : bool :=
  prefix t s ||
  match s with
  | EmptyString => false
  | String _ s' => includes s' t
  end.

(** [pose?.landmarks?.length] is truthy. *)
Definition has_landmarks (r : option LandmarkerResult) : bool :=
  match r with
  | Some res => negb (Nat.eqb (length (landmarks res)) 0)
  | None => false
  end.

(** [r.landmarks[0]], read only when [has_landmarks r]. *)
Definition first_landmarks (r : option LandmarkerResult)
  : list NormalizedLandmark :=
  match r with
  | Some res => hd [] (landmarks res)
  | None => []
  end.

(** ** The engine *)

Section Engine.

Context (rt : Runtime).

Definition distance (a b : option NormalizedLandmark) : Completion float :=
  ax <- get_x a ;; bx <- get_x b ;;
  ay <- get_y a ;; by_ <- get_y b ;;
  Normal (Math_hypot rt (ax - bx) (ay - by_)).

Definition angleDeg (a b c : option NormalizedLandmark) : Completion float :=
  ax <- get_x a ;; bx <- get_x b ;;
  ay <- get_y a ;; by_ <- get_y b ;;
  let ab := mkLandmark (ax - bx) (ay - by_) in
  cx <- get_x c ;; bx' <- get_x b ;;
  cy <- get_y c ;; by' <- get_y b ;;
  let cb := mkLandmark (cx - bx') (cy - by') in
  let dot := x ab * x cb + y ab * y cb in
  let magAb := Math_hypot rt (x ab) (y ab) in
  let magCb := Math_hypot rt (x cb) (y cb) in
  if falsy magAb || falsy magCb then Normal 180
  else
    let cos := Math_min 1 (Math_max (-1) (dot / (magAb * magCb))) in
    Normal (Math_acos rt cos * (180 / Math_PI)).

(** The shoulder span of a frame (the source's local [span]). *)
Definition headSpan (lm : list NormalizedLandmark) : Completion float :=
  let lShoulder := item lm 11 in
  let rShoulder := item lm 12 in
  lsx <- get_x lShoulder ;; rsx <- get_x rShoulder ;;
  Normal (Math_abs (lsx - rsx)).

(** The yaw angle of a frame in degrees (the source's locals [center],
    [delta] and [yaw]), computed once the span is known to be truthy. *)
Definition headYaw (lm : list NormalizedLandmark) (span : float)
  : Completion float :=
  let nose := item lm 0 in
  let lShoulder := item lm 11 in
  let rShoulder := item lm 12 in
  lsx <- get_x lShoulder ;; rsx <- get_x rShoulder ;;
  let center := (lsx + rsx) / 2 in
  nx <- get_x nose ;;
  let delta := nx - center in
  Normal (Math_asin rt (Math_max (-1) (Math_min 1 (delta / span)))
          * (180 / Math_PI)).

Definition headLogic (pose : option PoseLandmarkerResult) (state : State.t)
  : Completion Result.t :=
  if negb (has_landmarks pose) then
    Normal (Result.mk (State.rep state) "Show your shoulders and head" 0 None)
  else
    let lm := first_landmarks pose in
    span <- headSpan lm ;;
    if falsy span then
      Normal (Result.mk (State.rep state) "Hold steady" 0 None)
    else
      yaw <- headYaw lm span ;;
      let threshold := 25 in
      let rep := State.rep state in
      let phase := State.phase state in
      let '(rep, phase) :=
        if gtb yaw threshold && negb (String.eqb phase "right") then
          (rep, "right"%string)
        else if (yaw <? - threshold) && String.eqb phase "right" then
          ((rep + 1)%Z, "left"%string)
        else if (yaw <? - threshold) && negb (String.eqb phase "left") then
          (rep, "left"%string)
        else if gtb yaw threshold && String.eqb phase "left" then
          ((rep + 1)%Z, "right"%string)
        else (rep, phase) in
      let quality :=
        Math_min 100 (Math_max 0 (Math_abs yaw / threshold * 70)) in
      Normal (Result.mk rep
                ("Yaw " ++ toFixed rt yaw 1 ++ " deg")
                quality
                (Some phase)).

(** The denominator [span || 0.1] of the normalized gap. *)
Definition fingerDenominator (span : float) : float := or_else span 0.1.

(** The normalized pinch gap of a frame (the source's locals [span],
    [pinch] and [norm]). *)
Definition fingerNorm (lm : list NormalizedLandmark) : Completion float :=
  let thumb := item lm 4 in
  let index := item lm 8 in
  let wrist := item lm 0 in
  span <- distance thumb wrist ;;
  pinch <- distance thumb index ;;
  Normal (pinch / fingerDenominator span).

Definition fingerLogic (hand : option HandLandmarkerResult) (state : State.t)
  : Completion Result.t :=
  if negb (has_landmarks hand) then
    Normal (Result.mk (State.rep state) "Show your hand to the camera" 0 None)
  else
    let lm := first_landmarks hand in
    norm <- fingerNorm lm ;;
    let rep := State.rep state in
    let phase := State.phase state in
    let phase := if norm <? 0.25 then "pinched"%string else phase in
    let '(rep, phase) :=
      if gtb norm 0.45 && String.eqb phase "pinched" then
        ((rep + 1)%Z, "released"%string)
      else (rep, phase) in
    let quality := Math_max 0 (Math_min 100 ((0.45 - norm) * 200)) in
    Normal (Result.mk rep
              ("Pinch gap " ++ toFixed rt (norm * 100) 0 ++ "%")
              quality
              (Some phase)).

(** [tips.filter((t, idx) => t.y < mcp[idx].y).length], the callback
    run on the entries in order. *)
Fixpoint count_extended (tips mcp : list (option NormalizedLandmark))
  : Completion nat :=
  match tips, mcp with
  | t :: tips', m :: mcp' =>
      ty <- get_y t ;; my <- get_y m ;;
      n <- count_extended tips' mcp' ;;
      Normal (if ty <? my then S n else n)
  | _, _ => Normal 0%nat
  end.

Definition handLogic (hand : option HandLandmarkerResult) (state : State.t)
  : Completion Result.t :=
  if negb (has_landmarks hand) then
    Normal (Result.mk (State.rep state) "Show your hand to the camera" 0 None)
  else
    let lm := first_landmarks hand in
    let tips := map (fun i => item lm i) [8; 12; 16; 20]%nat in
    let mcp := map (fun i => item lm i) [5; 9; 13; 17]%nat in
    extended <- count_extended tips mcp ;;
    let rep := State.rep state in
    let phase := State.phase state in
    let phase := if (3 <=? extended)%nat then "open"%string else phase in
    let '(rep, phase) :=
      if (extended <=? 1)%nat && String.eqb phase "open" then
        ((rep + 1)%Z, "fist"%string)
      else (rep, phase) in
    let quality := Math_min 100 (of_nat extended * 25) in
    Normal (Result.mk rep
              (if (3 <=? extended)%nat then "Open" else "Fist")
              quality
              (Some phase)).

Definition legLogic (pose : option PoseLandmarkerResult) (state : State.t)
  : Completion Result.t :=
  if negb (has_landmarks pose) then
    Normal (Result.mk (State.rep state) "Show full body to camera" 0 None)
  else
    let lm := first_landmarks pose in
    let knee := item lm 25 in
    let hip := item lm 23 in
    let ankle := item lm 27 in
    ky <- get_y knee ;; hy <- get_y hip ;;
    let raised := ky <? hy - 0.05 in
    let rep := State.rep state in
    let phase := State.phase state in
    let phase := if raised then "up"%string else phase in
    let '(rep, phase) :=
      if negb raised && String.eqb phase "up" then
        ((rep + 1)%Z, "down"%string)
      else (rep, phase) in
    ang <- angleDeg hip knee ankle ;;
    let quality := Math_min 100 (Math_max 0 ((180 - ang) * 1.2)) in
    Normal (Result.mk rep
              (if raised then "Knee up" else "Neutral")
              quality
              (Some phase)).

(** The two elevation angle proxies of a frame, in the order the
    source computes them. *)
Definition shoulderAngles (lm : list NormalizedLandmark)
  : Completion (float * float) :=
  let lShoulder := item lm 11 in
  let rShoulder := item lm 12 in
  let lEar := item lm 7 in
  let rEar := item lm 8 in
  rsx <- get_x rShoulder ;; lsx <- get_x lShoulder ;;
  let span := Math_abs (rsx - lsx) + 0.0001 in
  ley <- get_y lEar ;; lsy <- get_y lShoulder ;;
  let lRatio := Math_abs (ley - lsy) / span in
  rey <- get_y rEar ;; rsy <- get_y rShoulder ;;
  let rRatio := Math_abs (rey - rsy) / span in
  let lAngle := (1 - lRatio) * 180 in
  let rAngle := (1 - rRatio) * 180 in
  Normal (lAngle, rAngle).

Definition shoulderLogic (pose : option PoseLandmarkerResult) (state : State.t)
  : Completion Result.t :=
  if negb (has_landmarks pose) then
    Normal (Result.mk (State.rep state) "Show upper body" 0 None)
  else
    let lm := first_landmarks pose in
    angles <- shoulderAngles lm ;;
    let '(lAngle, rAngle) := angles in
    let liftAngle := 60 in
    let relaxAngle := 40 in
    let rep := State.rep state in
    (* [typeof state.phase === 'string'] holds of every [State.t] *)
    let phaseStr := State.phase state in
    let leftHold := includes phaseStr "L1" in
    let rightHold := includes phaseStr "R1" in
    let '(rep, leftHold) :=
      if negb leftHold && geb lAngle liftAngle then ((rep + 1)%Z, true)
      else if leftHold && (lAngle <? relaxAngle) then (rep, false)
      else (rep, leftHold) in
    let '(rep, rightHold) :=
      if negb rightHold && geb rAngle liftAngle then ((rep + 1)%Z, true)
      else if rightHold && (rAngle <? relaxAngle) then (rep, false)
      else (rep, rightHold) in
    let phase :=
      ("L" ++ (if leftHold then "1" else "0") ++
       "R" ++ (if rightHold then "1" else "0"))%string in
    let quality := Math_min 100 (Math_max lAngle rAngle / 1.2) in
    Normal (Result.mk rep
              ("L:" ++ toFixed rt lAngle 0 ++ " deg R:"
                    ++ toFixed rt rAngle 0 ++ " deg")
              quality
              (Some phase)).

Definition evaluateFrame (exercise : string)
  (pose : option PoseLandmarkerResult) (hand : option HandLandmarkerResult)
  (state : State.t) : Completion Result.t :=
  if String.eqb exercise "head" then headLogic pose state
  else if String.eqb exercise "finger" then fingerLogic hand state
  else if String.eqb exercise "hand" then handLogic hand state
  else if String.eqb exercise "leg" then legLogic pose state
  else if String.eqb exercise "shoulder" then shoulderLogic pose state
  else Normal (Result.mk (State.rep state) "Idle" 0 None).

End Engine.

(** ** The frame loop's use of a result (the patient page) *)

(** [Math.max(0, Math.min(100, result.quality || 0))]. *)
Definition safeQuality (q : float) : float :=
  Math_max 0 (Math_min 100 (or_else q 0)).

(** The counters after one frame: [repRef] takes the returned [rep] when
    it differs, [phaseRef] takes the returned [phase] when it is a
    non-empty string that differs. *)
Definition nextState (cur : State.t) (result : Result.t) : State.t :=
  let rep :=
    if negb (Z.eqb (Result.rep result) (State.rep cur))
    then Result.rep result else State.rep cur in
  let phase :=
    match Result.phase result with
    | Some p =>
        if negb (String.eqb p "") && negb (String.eqb p (State.phase cur))
        then p else State.phase cur
    | None => State.phase cur
    end in
  State.mk rep phase.

(** ** A reference runtime

    One implementation of the library functions the engine is
    parameterised by, used to run the engine on concrete frames.
    [Math.hypot], [Math.asin] and [Math.acos] are implementation-
    approximated in ECMAScript apart from their special cases; [toFixed]
    is exact for magnitudes below 1e21, where ECMAScript prints positional
    digits. *)
Module RefRuntime.

Definition hypot (a b : float) : float :=
  if is_infinity a || is_infinity b then infinity
  else sqrt (a * a + b * b).

(** [1/k - t2 * (1/(k+2) - t2 * ...)], [n] terms deep. *)
Fixpoint atan_horner (n : nat) (k t2 : float) : float :=
  match n with
  | O => 1 / k
  | S n' => 1 / k - t2 * atan_horner n' (k + 2) t2
  end.

Definition atan_small (t : float) : float := t * atan_horner 12 1 (t * t).

(** [atan t = 2 * atan (halve t)]. *)
Definition halve (t : float) : float := t / (1 + sqrt (1 + t * t)).

Definition atan (t : float) : float :=
  8 * atan_small (halve (halve (halve t))).

Definition asin (v : float) : float :=
  if is_nan v || (1 <? abs v) then nan
  else if is_zero v then v
  else if abs v =? 1 then (if v <? 0 then - (Math_PI / 2) else Math_PI / 2)
  else atan (v / sqrt (1 - v * v)).

Definition acos (v : float) : float := Math_PI / 2 - asin v.

Fixpoint zeros (n : nat) : string :=
  match n with
  | O => EmptyString
  | S n' => String "0"%char (zeros n')
  end.

(** The decimal digits of [n] with a point before the last [f]. *)
Definition fixed_digits (n : N) (f : nat) : string :=
  let m := NilZero.string_of_uint (N.to_uint n) in
  match f with
  | O => m
  | S _ =>
      let m := (zeros (S f - String.length m) ++ m)%string in
      let k := (String.length m - f)%nat in
      (substring 0 k m ++ "." ++ substring k f m)%string
  end.

(** [v.toFixed(f)]: the integer [n] nearest to [v * 10^f] (the larger
    one on a tie), printed with [f] fractional digits. *)
Definition toFixed (v : float) (f : nat) : string :=
  match Prim2SF v with
  | S754_nan => "NaN"
  | S754_infinity s => if s then "-Infinity" else "Infinity"
  | S754_zero _ => fixed_digits 0 f
  | S754_finite s m e =>
      let scaled := (Zpos m * 10 ^ Z.of_nat f)%Z in
      let n :=
        if (0 <=? e)%Z then (scaled * 2 ^ e)%Z
        else ((2 * scaled + 2 ^ (- e)) / 2 ^ (1 - e))%Z in
      ((if s then "-" else "") ++ fixed_digits (Z.to_N n) f)%string
  end.

Definition runtime : Runtime := mkRuntime hypot asin acos toFixed.

End RefRuntime.

(** ** Sample frames *)

(** [lm] with entry [i] replaced (unchanged when [i] is out of range). *)
Fixpoint set_item (i : nat) (v : NormalizedLandmark)
  (lm : list NormalizedLandmark) : list NormalizedLandmark :=
  match lm, i with
  | [], _ => []
  | _ :: tl, O => v :: tl
  | h :: tl, S i' => h :: set_item i' v tl
  end.

(** A one-subject detection of [n] landmarks, all at the frame centre
    except the listed ones. *)
Definition detection (n : nat) (pts : list (nat * NormalizedLandmark))
  : option LandmarkerResult :=
  Some (mkLandmarkerResult
          [fold_right (fun p lm => set_item (fst p) (snd p) lm)
             (repeat (mkLandmark 0.5 0.5) n) pts]).

Definition poseDetection := detection 33.
Definition handDetection := detection 21.

(** The nose one shoulder span to one side of the shoulder midpoint: the
    yaw is 90 degrees. *)
Definition turnedPose : option PoseLandmarkerResult :=
  poseDetection [(0%nat, mkLandmark 0.7 0.3);
                 (11%nat, mkLandmark 0.6 0.5); (12%nat, mkLandmark 0.4 0.5)].

(** The nose one shoulder span to the other side: the yaw is -90
    degrees. *)
Definition turnedBackPose : option PoseLandmarkerResult :=
  poseDetection [(0%nat, mkLandmark 0.3 0.3);
                 (11%nat, mkLandmark 0.6 0.5); (12%nat, mkLandmark 0.4 0.5)].

(** Both shoulders detected at the same [x]. *)
Definition collapsedPose : option PoseLandmarkerResult :=
  poseDetection [(0%nat, mkLandmark 0.5 0.3);
                 (11%nat, mkLandmark 0.6 0.5); (12%nat, mkLandmark 0.6 0.5)].

(** Both shoulders shrugged close to the ears. *)
Definition shruggedPose : option PoseLandmarkerResult :=
  poseDetection [(7%nat, mkLandmark 0.55 0.45); (8%nat, mkLandmark 0.45 0.45);
                 (11%nat, mkLandmark 0.6 0.5); (12%nat, mkLandmark 0.4 0.5)].

(** Only the left shoulder shrugged. *)
Definition leftShrugPose : option PoseLandmarkerResult :=
  poseDetection [(7%nat, mkLandmark 0.55 0.45); (8%nat, mkLandmark 0.45 0.35);
                 (11%nat, mkLandmark 0.6 0.5); (12%nat, mkLandmark 0.4 0.5)].

(** A subject turned sideways: the shoulders are 0.1 apart in the image
    and the ears 0.2 above them. *)
Definition sidewaysPose : option PoseLandmarkerResult :=
  poseDetection [(7%nat, mkLandmark 0.5 0.3); (8%nat, mkLandmark 0.5 0.3);
                 (11%nat, mkLandmark 0.55 0.5); (12%nat, mkLandmark 0.45 0.5)].

(** Thumb one unit from the wrist, index tip 0.1 from the thumb. *)
Definition pinchedHand : option HandLandmarkerResult :=
  handDetection [(0%nat, mkLandmark 0 0); (4%nat, mkLandmark 1 0);
                 (8%nat, mkLandmark 1 0.1)].

(** Thumb one unit from the wrist, index tip 0.5 from the thumb. *)
Definition releasedHand : option HandLandmarkerResult :=
  handDetection [(0%nat, mkLandmark 0 0); (4%nat, mkLandmark 1 0);
                 (8%nat, mkLandmark 1 0.5)].

(** A hand far from the camera: thumb 0.05 from the wrist, index tip 0.01
    from the thumb. *)
Definition smallHand : option HandLandmarkerResult :=
  handDetection [(0%nat, mkLandmark 0 0); (4%nat, mkLandmark 0.05 0);
                 (8%nat, mkLandmark 0.05 0.01)].

(** ** The order of binary64 values *)

(** The rank of a value, read off its sign, exponent and mantissa: [NaN]
    has none, [+0] and [-0] share one, and the ranks of two values compare
    lexicographically exactly as the values do. *)
Definition SFrank (f : spec_float) : option (Z * Z * Z) :=
  match f with
  | S754_nan => None
  | S754_infinity true => Some (-2, 0, 0)%Z
  | S754_infinity false => Some (2, 0, 0)%Z
  | S754_zero _ => Some (0, 0, 0)%Z
  | S754_finite false m e => Some (1, e, Zpos m)%Z
  | S754_finite true m e => Some (-1, - e, Zneg m)%Z
  end.

Definition rank (v : float) : option (Z * Z * Z) := SFrank (Prim2SF v).

Definition lex_lt (a b : Z * Z * Z) : Prop :=
  let '(a1, a2, a3) := a in
  let '(b1, b2, b3) := b in
  (a1 < b1 \/ (a1 = b1 /\ (a2 < b2 \/ (a2 = b2 /\ a3 < b3))))%Z.

Definition rank_lt (a b : option (Z * Z * Z)) : Prop :=
  match a, b with
  | Some a, Some b => lex_lt a b
  | _, _ => False
  end.

Definition rank_eq (a b : option (Z * Z * Z)) : Prop :=
  match a, b with
  | Some a, Some b => a = b
  | _, _ => False
  end.

Definition rank_le (a b : option (Z * Z * Z)) : Prop :=
  rank_lt a b \/ rank_eq a b.

Definition lex_le (a b : Z * Z * Z) : Prop := lex_lt a b \/ a = b.

(** ** Vocabulary of the statements *)

(** The five identifiers of the exercise catalogue ([ExerciseId]). *)
Definition ExerciseIds : list string :=
  ["head"; "finger"; "hand"; "leg"; "shoulder"]%string.

(** No subject detected: the detector gave [null] or no landmark list. *)
Definition absent (r : option LandmarkerResult) : Prop :=
  r = None \/ r = Some (mkLandmarkerResult []).

(** The largest increase of the counter an exercise makes in one call. *)
Definition maxStep (exercise : string) : Z :=
  if String.eqb exercise "shoulder" then 2 else 1.

(** A number within the closed range from 0 to 100. *)
Definition in_range (q : float) : Prop :=
  (0 <=? q) = true /\ (q <=? 100) = true.

(** A detection that, when it has a subject, lists at least [n]
    landmarks for it (the pose detector gives 33, the hand detector 21). *)
Definition listsAtLeast (n : nat) (r : option LandmarkerResult) : Prop :=
  has_landmarks r = true -> (n <= length (first_landmarks r))%nat.

(** The four phases of the shoulder analyzer's two-flag encoding. *)
Definition shoulderPhases : list string :=
  ["L0R0"; "L1R0"; "L0R1"; "L1R1"]%string.

(** A denominator with a floor of 0.1: the scale reference when it is at
    least 0.1, and 0.1 otherwise. *)
Definition flooredDenominator (span : float) : float :=
  if geb span 0.1 then span else 0.1.

(** The landmark set an exercise reads: the pose for head, leg and
    shoulder, the hand for finger and hand. *)
Definition modality (exercise : string)
  (pose : option PoseLandmarkerResult) (hand : option HandLandmarkerResult)
  : option LandmarkerResult :=
  if String.eqb exercise "finger" || String.eqb exercise "hand"
  then hand else pose.

(** The status each exercise reports when its subject is not visible. *)
Definition notVisibleStatus (exercise : string) : string :=
  if String.eqb exercise "head" then "Show your shoulders and head"
  else if String.eqb exercise "finger" then "Show your hand to the camera"
  else if String.eqb exercise "hand" then "Show your hand to the camera"
  else if String.eqb exercise "leg" then "Show full body to camera"
  else "Show upper body".

(** ** Readings of a frame *)

(** The number of extended fingers of a hand frame (the source's locals
    [tips], [mcp] and [extended] of [handLogic]). *)
Definition handExtended (lm : list NormalizedLandmark) : Completion nat :=
  count_extended (map (fun i => item lm i) [8; 12; 16; 20]%nat)
                 (map (fun i => item lm i) [5; 9; 13; 17]%nat).

(** Whether the knee of a pose frame is raised (the source's local
    [raised] of [legLogic]). *)
Definition legRaised (lm : list NormalizedLandmark) : Completion bool :=
  ky <- get_y (item lm 25) ;; hy <- get_y (item lm 23) ;;
  Normal (ky <? hy - 0.05).

(** The number of landmarks an exercise reads up to: one more than the
    largest index its analyzer uses. *)
Definition requiredLandmarks (exercise : string) : nat :=
  if String.eqb exercise "head" then 13
  else if String.eqb exercise "finger" then 9
  else if String.eqb exercise "hand" then 21
  else if String.eqb exercise "leg" then 28
  else if String.eqb exercise "shoulder" then 13
  else 0.

(** The qualities the hand analyzer can report. *)
Definition handQualities : list float := [0; 25; 50; 75; 100].

(** [Math.hypot] of two numbers that are each zero or [NaN] is zero or
    [NaN], as ECMAScript requires of every implementation. *)
Definition hypotOfFalsy (rt : Runtime) : Prop :=
  forall u v : float,
    falsy u = true -> falsy v = true -> falsy (Math_hypot rt u v) = true.

(** More frames. *)

(** The nose over the shoulder midpoint: the yaw is 0. *)
Definition centredPose : option PoseLandmarkerResult :=
  poseDetection [(0%nat, mkLandmark 0.5 0.3);
                 (11%nat, mkLandmark 0.6 0.5); (12%nat, mkLandmark 0.4 0.5)].

(** Both ears well above the shoulders: both angle proxies are about
    -45 degrees, below the relax threshold. *)
Definition relaxedPose : option PoseLandmarkerResult :=
  poseDetection [(7%nat, mkLandmark 0.55 0.25); (8%nat, mkLandmark 0.45 0.25);
                 (11%nat, mkLandmark 0.6 0.5); (12%nat, mkLandmark 0.4 0.5)].

(** Both angle proxies about 45 degrees, between the two thresholds. *)
Definition halfShrugPose : option PoseLandmarkerResult :=
  poseDetection [(7%nat, mkLandmark 0.55 0.35); (8%nat, mkLandmark 0.45 0.35);
                 (11%nat, mkLandmark 0.6 0.5); (12%nat, mkLandmark 0.4 0.5)].

(** The knee 0.2 above the hip, the leg bent at a right angle. *)
Definition kneeUpPose : option PoseLandmarkerResult :=
  poseDetection [(23%nat, mkLandmark 0.5 0.5); (25%nat, mkLandmark 0.5 0.3);
                 (27%nat, mkLandmark 0.7 0.3)].

(** The knee below the hip, the leg straight. *)
Definition kneeDownPose : option PoseLandmarkerResult :=
  poseDetection [(23%nat, mkLandmark 0.5 0.5); (25%nat, mkLandmark 0.5 0.7);
                 (27%nat, mkLandmark 0.5 0.9)].

(** The knee detected on the hip. *)
Definition kneeOnHipPose : option PoseLandmarkerResult :=
  poseDetection [(23%nat, mkLandmark 0.5 0.5); (25%nat, mkLandmark 0.5 0.5);
                 (27%nat, mkLandmark 0.5 0.9)].

(** A pose list that stops after the right shoulder's neighbour: 12
    landmarks. *)
Definition shortPose : option PoseLandmarkerResult := detection 12 [].

(** Thumb one unit from the wrist, index tip 0.3 from the thumb. *)
Definition halfOpenHand : option HandLandmarkerResult :=
  handDetection [(0%nat, mkLandmark 0 0); (4%nat, mkLandmark 1 0);
                 (8%nat, mkLandmark 1 0.3)].

(** The four fingertips above their knuckles. *)
Definition openHand : option HandLandmarkerResult :=
  handDetection [(8%nat, mkLandmark 0.4 0.2); (12%nat, mkLandmark 0.5 0.2);
                 (16%nat, mkLandmark 0.6 0.2); (20%nat, mkLandmark 0.7 0.2)].

(** The four fingertips below their knuckles. *)
Definition fistHand : option HandLandmarkerResult :=
  handDetection [(8%nat, mkLandmark 0.4 0.6); (12%nat, mkLandmark 0.5 0.6);
                 (16%nat, mkLandmark 0.6 0.6); (20%nat, mkLandmark 0.7 0.6)].

(** Two fingertips above their knuckles, two below. *)
Definition twoFingerHand : option HandLandmarkerResult :=
  handDetection [(8%nat, mkLandmark 0.4 0.2); (12%nat, mkLandmark 0.5 0.2);
                 (16%nat, mkLandmark 0.6 0.6); (20%nat, mkLandmark 0.7 0.6)].

(** ** The exercise catalogue *)

Inductive Difficulty : Type := Beginner | Intermediate.

(** [ExerciseConfig]; the target count is a small integer. *)
Module ExerciseConfig.
Record t : Type := mk {
  id : string;
  name : string;
  focusArea : string;
  difficulty : Difficulty;
  image : string;
  targetReps : Z;
  instructions : list string
}.
End ExerciseConfig.

Definition EXERCISES : list ExerciseConfig.t :=
  [ ExerciseConfig.mk "head" "Head Turns"
      "Neck mobility and posture control" Beginner
      "/images/exercise-head.svg" 10
      [ "Face the camera with shoulders visible.";
        "Turn head slowly right past about 70 deg while shoulders stay still.";
        "Then turn left past about 70 deg.";
        "One full right-to-left (or left-to-right) sweep counts as 1 rep." ];
    ExerciseConfig.mk "finger" "Finger Pinch"
      "Fine motor control and grip precision" Beginner
      "/images/exercise-finger.svg" 15
      [ "Show one hand to the camera.";
        "Pinch thumb and index together firmly, then release fully.";
        "Keep hand centered and well lit." ];
    ExerciseConfig.mk "hand" "Open / Fist"
      "Hand opening range and coordination" Beginner
      "/images/exercise-hand.svg" 12
      [ "Show one hand to the camera.";
        "Fully open your hand, then make a fist.";
        "Hold each shape for about 1 second to count." ];
    ExerciseConfig.mk "leg" "Knee Raise"
      "Hip flexion and lower-limb control" Intermediate
      "/images/exercise-leg.svg" 12
      [ "Stand so your full body is visible.";
        "Raise left knee above hip line, return to neutral.";
        "Alternate legs if comfortable; move slowly and with control." ];
    ExerciseConfig.mk "shoulder" "Shoulder Raises"
      "Shoulder stability and upper-body activation" Intermediate
      "/images/exercise-shoulder.svg" 12
      [ "Stand or sit upright facing the camera.";
        "Raise left shoulder (shrug) toward ear, return to neutral.";
        "Raise right shoulder toward ear, return to neutral.";
        "One left + right cycle counts as 1 rep." ] ]%string.

(** [EXERCISES.some((item) => item.id === ex)]. *)
Definition inCatalogue (ex : string) : bool :=
  existsb (fun item => String.eqb (ExerciseConfig.id item) ex) EXERCISES.

(** The page's [config]:
    [EXERCISES.find((item) => item.id === exercise) ?? EXERCISES[0]]. *)
Definition config (exercise : string) : option ExerciseConfig.t :=
  match find (fun item => String.eqb (ExerciseConfig.id item) exercise)
          EXERCISES with
  | Some item => Some item
  | None => nth_error EXERCISES 0
  end.


(** ** The frame loop of the patient page *)

(** The refs and the state the loop writes: [repRef], [phaseRef],
    [sumQualityRef], [frameCountRef], and the displayed [repCount],
    [quality] and [status]. *)
Module Session.
Record t : Type := mk {
  repRef : Z;
  phaseRef : string;
  sumQualityRef : float;
  frameCountRef : Z;
  repCount : Z;
  quality : float;
  status : string
}.
End Session.

(** What one animation frame finds: whether the session is paused,
    whether the video has a current frame, and the two detections. *)
Module Frame.
Record t : Type := mk {
  paused : bool;
  videoReady : bool;
  pose : option PoseLandmarkerResult;
  hand : option HandLandmarkerResult
}.
End Frame.

(** [resetCounters], with the display reset that accompanies it when a
    session starts. *)
Definition resetCounters (s : Session.t) : Session.t :=
  Session.mk 0 "idle" 0 0 0 0 "Preparing camera...".

(** One run of [processFrame] inside a session: a paused session or a
    video without a current frame leaves everything as it is; otherwise
    the frame is evaluated on the current counters and the refs and the
    display take the result.  The live broadcast that follows writes
    none of these. *)
Definition processFrame (rt : Runtime) (exercise : string)
  (s : Session.t) (f : Frame.t) : Completion Session.t :=
  if Frame.paused f then Normal s
  else if negb (Frame.videoReady f) then Normal s
  else
    result <- evaluateFrame rt exercise (Frame.pose f) (Frame.hand f)
                (State.mk (Session.repRef s) (Session.phaseRef s)) ;;
    let changed := negb (Z.eqb (Result.rep result) (Session.repRef s)) in
    let repRef := if changed then Result.rep result else Session.repRef s in
    let repCount :=
      if changed then Result.rep result else Session.repCount s in
    let phaseRef :=
      match Result.phase result with
      | Some p =>
          if negb (String.eqb p "")
             && negb (String.eqb p (Session.phaseRef s))
          then p else Session.phaseRef s
      | None => Session.phaseRef s
      end in
    let safe := safeQuality (Result.quality result) in
    Normal (Session.mk repRef phaseRef
              (Session.sumQualityRef s + safe)
              (Session.frameCountRef s + 1)
              repCount safe (Result.status result)).

(** The loop over the frames of a session: each frame that completes
    requests the next one; a frame that throws requests none, so the loop
    stops with the refs as that frame found them. *)
Fixpoint runFrames (rt : Runtime) (exercise : string)
  (frames : list Frame.t) (s : Session.t) : Session.t :=
  match frames with
  | [] => s
  | f :: rest =>
      match processFrame rt exercise s f with
      | Normal s' => runFrames rt exercise rest s'
      | Throw _ => s
      end
  end.

(** A session as [resetCounters] leaves it. *)
Definition freshSession : Session.t :=
  resetCounters (Session.mk 0 "" 0 0 0 0 "").

(** A short head session: a turn, a pause, a turn back, a frame whose
    pose list is cut short, and a frame that is never reached. *)
Definition headSessionFrames : list Frame.t :=
  [ Frame.mk false true turnedPose None;
    Frame.mk true true turnedBackPose None;
    Frame.mk false true turnedBackPose None;
    Frame.mk false false turnedPose None;
    Frame.mk false true shortPose None;
    Frame.mk false true turnedPose None ].

(** ** Authentication state and route guards *)

(** What [useAuth] provides: the signed-in user (its uid), the resolved
    role and clinic, and whether the session is still being resolved. *)
Module Auth.
Record t : Type := mk {
  user : option string;
  role : option string;
  clinicId : option string;
  loading : bool
}.
End Auth.

(** The state before the first authentication event. *)
Definition initialAuth : Auth.t := Auth.mk None None None true.

(** [getIdTokenResult]: rejected, or the [role] and [clinicId] claims of
    the token. *)
Inductive TokenResult : Type :=
| TokenRejected
| TokenClaims (role clinicId : option string).

(** The read of [userRoles/<uid>]: rejected, no record, or the record's
    [role] and [clinicId]. *)
Inductive RoleSnapshot : Type :=
| FetchRejected
| NoRecord
| RoleRecord (role clinicId : option string).

(** A string-or-null is truthy when it is a non-empty string. *)
Definition truthy (s : option string) : bool :=
  match s with
  | Some v => negb (String.eqb v "")
  | None => false
  end.

(** [a ?? b]. *)
Definition nullish (a b : option string) : option string :=
  match a with
  | Some _ => a
  | None => b
  end.

(** The role and clinic [AuthProvider] settles on: the token claims, and
    for a claim that is missing, the database record when either claim is
    missing or empty and the record can be read. *)
Definition resolveRole (claimRole claimClinic : option string)
  (snap : RoleSnapshot) : option string * option string :=
  let nextRole := claimRole in
  let nextClinicId := claimClinic in
  if negb (truthy nextRole) || negb (truthy nextClinicId) then
    match snap with
    | RoleRecord dbRole dbClinic =>
        (nullish nextRole dbRole, nullish nextClinicId dbClinic)
    | NoRecord => (nextRole, nextClinicId)
    | FetchRejected => (nextRole, nextClinicId)
    end
  else (nextRole, nextClinicId).

(** One authentication event.  With no user the role and clinic are
    cleared; with a user they are resolved from the token and the
    database; a rejected token read ends the handler after [setUser]. *)
Definition onAuthStateChanged (prev : Auth.t) (firebaseUser : option string)
  (token : TokenResult) (snap : RoleSnapshot) : Auth.t :=
  match firebaseUser with
  | Some uid =>
      match token with
      | TokenClaims claimRole claimClinic =>
          let '(nextRole, nextClinicId) :=
            resolveRole claimRole claimClinic snap in
          Auth.mk (Some uid) nextRole nextClinicId false
      | TokenRejected =>
          Auth.mk (Some uid) (Auth.role prev) (Auth.clinicId prev)
            (Auth.loading prev)
      end
  | None => Auth.mk None None None false
  end.

(** What a route element renders: the loading spinner, a redirect, or a
    page. *)
Inductive Element : Type :=
| Spinner
| Navigate (to : string)
| Page (name : string).

(** [roles.includes(role)]. *)
Definition roleIncluded (roles : list string) (role : option string) : bool :=
  match role with
  | Some r => existsb (String.eqb r) roles
  | None => false
  end.

Definition ProtectedRoute (roles : list string) (children : Element)
  (auth : Auth.t) : Element :=
  if Auth.loading auth then Spinner
  else if negb (match Auth.user auth with Some _ => true | None => false end)
          || negb (truthy (Auth.role auth))
          || negb (roleIncluded roles (Auth.role auth))
  then Navigate "/login"
  else children.

(** [role === r] on a string-or-null. *)
Definition roleIs (role : option string) (r : string) : bool :=
  match role with
  | Some v => String.eqb v r
  | None => false
  end.

Definition HomeRedirect (auth : Auth.t) : Element :=
  if Auth.loading auth then Spinner
  else if roleIs (Auth.role auth) "admin" then Navigate "/admin"
  else if roleIs (Auth.role auth) "doctor" then Navigate "/doctor"
  else if roleIs (Auth.role auth) "patient" then Navigate "/patient"
  else Navigate "/login".

(** The login page's [redirectToRole]. *)
Definition redirectToRole (nextRole : string) : string :=
  if String.eqb nextRole "admin" then "/admin"
  else if String.eqb nextRole "doctor" then "/doctor"
  else "/patient".

(** The login page: once the session is resolved with a role it
    redirects, otherwise it shows the form. *)
Definition LoginPage (auth : Auth.t) : Element :=
  match Auth.role auth with
  | Some r =>
      if negb (Auth.loading auth) && truthy (Some r)
      then Navigate (redirectToRole r) else Page "LoginPage"
  | None => Page "LoginPage"
  end.

(** The element [App] declares for a route pattern; the [*] route
    redirects home. *)
Definition routeElement (pattern : string) (auth : Auth.t) : Element :=
  if String.eqb pattern "/" then HomeRedirect auth
  else if String.eqb pattern "/login" then LoginPage auth
  else if String.eqb pattern "/patient" then
    ProtectedRoute ["patient"%string] (Page "PatientPage") auth
  else if String.eqb pattern "/patient/session" then
    ProtectedRoute ["patient"%string] (Page "PatientPage") auth
  else if String.eqb pattern "/doctor" then
    ProtectedRoute ["doctor"%string] (Page "DoctorPage") auth
  else if String.eqb pattern "/admin" then
    ProtectedRoute ["admin"%string] (Page "AdminPage") auth
  else Navigate "/".

(** The three roles. *)
Definition Roles : list string := ["admin"; "doctor"; "patient"]%string.

(** The guarded route patterns, each with the role it is declared for. *)
Definition guardedRoutes : list (string * string) :=
  [("/patient", "patient"); ("/patient/session", "patient");
   ("/doctor", "doctor"); ("/admin", "admin")]%string.

(** ** Session history *)

(** [SessionRecord]; the optional fields are [None] when absent. *)
Module SessionRecord.
Record t : Type := mk {
  id : option string;
  exerciseId : string;
  duration : float;
  repetitionCount : float;
  accuracyScore : float;
  finalScore : float;
  speed : option float;
  stability : option float;
  formScore : option float;
  qualityAvg : option float;
  timestamp : float;
  clinicId : string;
  doctorId : string;
  patientId : string
}.
End SessionRecord.

(** A [Map] from exercise identifiers to records, in insertion order. *)
Definition RecordMap : Type := list (string * SessionRecord.t).

(** [map.get(key)]. *)
Fixpoint map_get (key : string) (m : RecordMap) : option SessionRecord.t :=
  match m with
  | [] => None
  | (k, v) :: rest => if String.eqb k key then Some v else map_get key rest
  end.

(** [map.set(key, row)]: the entry of [key] is replaced where it stands,
    a new key is added at the end. *)
Fixpoint map_set (key : string) (row : SessionRecord.t) (m : RecordMap)
  : RecordMap :=
  match m with
  | [] => [(key, row)]
  | (k, v) :: rest =>
      if String.eqb k key then (k, row) :: rest
      else (k, v) :: map_set key row rest
  end.

(** The body of the [forEach] in [latestByExercise]. *)
Definition latestStep (m : RecordMap) (row : SessionRecord.t) : RecordMap :=
  let key := SessionRecord.exerciseId row in
  if negb (inCatalogue key) then m
  else
    match map_get key m with
    | None => map_set key row m
    | Some current =>
        if gtb (SessionRecord.timestamp row) (SessionRecord.timestamp current)
        then map_set key row m else m
    end.

(** The page's [latestByExercise]. *)
Definition latestByExercise (sessionHistory : list SessionRecord.t)
  : RecordMap :=
  fold_left latestStep sessionHistory [].

(** What holds of the map after the rows [seen]: every entry is a seen
    row of its key's exercise, a catalogue exercise, that no seen row of
    that exercise is later than; and every catalogue exercise seen has an
    entry. *)
Definition latestOf (seen : list SessionRecord.t) (m : RecordMap) : Prop :=
  (forall key r,
      map_get key m = Some r ->
      In r seen
      /\ SessionRecord.exerciseId r = key
      /\ inCatalogue key = true
      /\ forall r', In r' seen -> SessionRecord.exerciseId r' = key ->
                    (SessionRecord.timestamp r <? SessionRecord.timestamp r')
                    = false)
  /\ (forall r', In r' seen ->
                 inCatalogue (SessionRecord.exerciseId r') = true ->
                 map_get (SessionRecord.exerciseId r') m <> None).

(** A saved session of an exercise at a time. *)
Definition sessionAt (exercise : string) (time : float) : SessionRecord.t :=
  SessionRecord.mk None exercise 60 10 80 90 (Some 10) (Some 100) (Some 80)
    (Some 80) time "c1" "" "u1".

(** A history out of order, with a row of an unknown exercise. *)
Definition sampleHistory : list SessionRecord.t :=
  [ sessionAt "head" 2000; sessionAt "leg" 1500; sessionAt "yoga" 9000;
    sessionAt "head" 3000; sessionAt "head" 1000 ].

(** ** Account creation (the callable function) *)

(** What the callable receives: the caller's token role when the call is
    authenticated, and the four data fields, each possibly missing. *)
Module CreateRequest.
Record t : Type := mk {
  auth : option (option string);
  email : option string;
  password : option string;
  role : option string;
  clinicId : option string
}.
End CreateRequest.



(** * Properties *)

(** ** Comparison of numbers *)

Lemma SFcompare_rank (f g : spec_float) :
  match SFcompare f g with
  | Some Lt => rank_lt (SFrank f) (SFrank g)
  | Some Gt => rank_lt (SFrank g) (SFrank f)
  | Some Eq => rank_eq (SFrank f) (SFrank g)
  | None => SFrank f = None \/ SFrank g = None
  end.
Proof.
  destruct f as [sf | sf | | sf mf ef], g as [sg | sg | | sg mg eg];
    try destruct sf; try destruct sg; cbn; auto; try lia.
  all: change (Pos.compare_cont Eq mf mg) with (Pos.compare mf mg).
  all: destruct (Z.compare_spec ef eg), (Pos.compare_spec mf mg);
    cbn; subst; auto; lia.
Qed.

Ltac by_compare a b :=
  unfold rank, rank_le;
  pose proof (SFcompare_rank (Prim2SF a) (Prim2SF b));
  destruct (SFcompare (Prim2SF a) (Prim2SF b)) as [[]|];
  destruct (SFrank (Prim2SF a)) as [[[? ?] ?]|];
  destruct (SFrank (Prim2SF b)) as [[[? ?] ?]|];
  cbn in *; split; intros;
  repeat match goal with
    | H : _ \/ _ |- _ => destruct H
    | H : (_, _) = (_, _) |- _ => injection H as -> -> ->
    end;
  try discriminate; try reflexivity; try tauto; try lia.

Lemma ltb_rank (a b : float) : (a <? b) = true <-> rank_lt (rank a) (rank b).
Proof. rewrite FloatAxioms.ltb_spec. unfold SFltb. by_compare a b. Qed.

Lemma leb_rank (a b : float) : (a <=? b) = true <-> rank_le (rank a) (rank b).
Proof. rewrite FloatAxioms.leb_spec. unfold SFleb. by_compare a b. Qed.

Lemma eqb_rank (a b : float) : (a =? b) = true <-> rank_eq (rank a) (rank b).
Proof. rewrite FloatAxioms.eqb_spec. unfold SFeqb. by_compare a b. Qed.

Lemma is_nan_rank (a : float) : is_nan a = true <-> rank a = None.
Proof.
  unfold is_nan. pose proof (eqb_rank a a) as H.
  destruct (a =? a), (rank a) as [r|]; cbn in *; split; intros;
    try discriminate; auto.
  - destruct H as [H _]. destruct (H eq_refl).
  - destruct H as [_ H]. discriminate (H eq_refl).
Qed.

Lemma is_zero_rank (a : float) : is_zero a = true <-> rank a = Some (0, 0, 0)%Z.
Proof.
  unfold is_zero. rewrite eqb_rank.
  change (rank PrimFloat.zero) with (Some (0, 0, 0)%Z).
  destruct (rank a); cbn; split; intros; try discriminate; try tauto;
    congruence.
Qed.

Lemma falsy_rank (a : float) :
  falsy a = true <-> rank a = Some (0, 0, 0)%Z \/ rank a = None.
Proof.
  unfold falsy. rewrite orb_true_iff, is_zero_rank, is_nan_rank. tauto.
Qed.

(** [a < b] entails [a <= b]. *)
Lemma ltb_leb (a b : float) : (a <? b) = true -> (a <=? b) = true.
Proof. rewrite ltb_rank, leb_rank. unfold rank_le. tauto. Qed.

(** [a < b] and [b < c] exclude [c < a]. *)
Lemma ltb_ltb_not_gtb (a b c : float) :
  (a <? b) = true -> (b <? c) = true -> (c <? a) = false.
Proof.
  intros Hab Hbc. apply not_true_is_false. intros Hca.
  apply ltb_rank in Hab, Hbc, Hca.
  destruct (rank a) as [[[? ?] ?]|], (rank b) as [[[? ?] ?]|],
    (rank c) as [[[? ?] ?]|]; cbn in *; try tauto; lia.
Qed.

(** The difference of two equal numbers is zero or [NaN]. *)
Lemma SFsub_eqb (f g : spec_float) :
  SFeqb f g = true ->
  SFrank (SFabs (SF64sub f g)) = Some (0, 0, 0)%Z
  \/ SFrank (SFabs (SF64sub f g)) = None.
Proof.
  unfold SFeqb.
  destruct f as [sf | sf | | sf mf ef], g as [sg | sg | | sg mg eg];
    try destruct sf; try destruct sg; cbn; auto; try discriminate.
  all: change (Pos.compare_cont Eq mf mg) with (Pos.compare mf mg).
  all: destruct (Z.compare_spec ef eg), (Pos.compare_spec mf mg);
    cbn; try discriminate; subst; intros _.
  all: rewrite Z.min_id.
  all: change IntDef.Z.pos_sub with Z.pos_sub; rewrite Z.pos_sub_diag;
    cbn; auto.
Qed.

Lemma SFsub_diag (f : spec_float) :
  SFrank (SFabs (SF64sub f f)) = Some (0, 0, 0)%Z
  \/ SFrank (SFabs (SF64sub f f)) = None.
Proof.
  destruct f as [s | s | | s m e]; try destruct s; cbn; auto.
  all: rewrite Z.min_id.
  all: change IntDef.Z.pos_sub with Z.pos_sub; rewrite Z.pos_sub_diag;
    cbn; auto.
Qed.

Lemma sub_eqb_falsy (a b : float) :
  (a =? b) = true -> falsy (Math_abs (a - b)) = true.
Proof.
  intros H. apply falsy_rank. unfold rank, Math_abs.
  rewrite abs_spec, sub_spec. apply SFsub_eqb.
  now rewrite <- FloatAxioms.eqb_spec.
Qed.

Lemma sub_diag_falsy (a : float) : falsy (Math_abs (a - a)) = true.
Proof.
  apply falsy_rank. unfold rank, Math_abs.
  rewrite abs_spec, sub_spec. apply SFsub_diag.
Qed.

(** ** Dispatch *)

Lemma In_ExerciseIds (exercise : string) :
  In exercise ExerciseIds ->
  exercise = "head"%string \/ exercise = "finger"%string
  \/ exercise = "hand"%string \/ exercise = "leg"%string
  \/ exercise = "shoulder"%string.
Proof. cbn. intuition auto. Qed.

(** C5: an exercise identifier that is none of the five known ones makes
    [evaluateFrame] return [{rep: state.rep, status: "Idle", quality: 0}]
    without a phase, whatever the pose, hand and prior state; the call
    completes normally, it does not throw. *)
Theorem evaluateFrame_unknown_exercise (rt : Runtime) (exercise : string)
  (pose : option PoseLandmarkerResult) (hand : option HandLandmarkerResult)
  (state : State.t) :
  ~ In exercise ExerciseIds ->
  evaluateFrame rt exercise pose hand state
  = Normal (Result.mk (State.rep state) "Idle" 0 None).
Proof.
  intros Hid. unfold evaluateFrame.
  repeat match goal with
    | |- context [String.eqb exercise ?id] =>
        destruct (String.eqb_spec exercise id) as [-> | _];
        [ exfalso; apply Hid; cbn; tauto | ]
    end.
  reflexivity.
Qed.

Lemma evaluateFrame_unknown_exercise_witness :
  ~ In "unknown"%string ExerciseIds
  /\ evaluateFrame RefRuntime.runtime "unknown" turnedPose pinchedHand
       (State.mk 3 "left")
     = Normal (Result.mk 3 "Idle" 0 None).
Proof.
  assert (Hid : ~ In "unknown"%string ExerciseIds)
    by (cbn; intuition discriminate).
  split; [ exact Hid | ].
  exact (evaluateFrame_unknown_exercise RefRuntime.runtime "unknown"
           turnedPose pinchedHand (State.mk 3 "left") Hid).
Defined.

(** ** Subject not visible *)

Lemma absent_has_landmarks (r : option LandmarkerResult) :
  absent r -> has_landmarks r = false.
Proof. intros [-> | ->]; reflexivity. Qed.

Lemma nextState_unchanged (state : State.t) (status : string) (q : float) :
  nextState state (Result.mk (State.rep state) status q None) = state.
Proof.
  destruct state as [rep phase]. unfold nextState. cbn.
  now rewrite Z.eqb_refl.
Qed.

(** C6: for each of the five exercises and every prior state, when the
    landmark set the exercise reads is absent ([null], or with no
    landmark list) [evaluateFrame] returns quality 0, the prior rep, no
    phase field and the exercise's own not-visible status; the caller's
    counters are left as they were. *)
Theorem evaluateFrame_absent_landmarks (rt : Runtime) (exercise : string)
  (pose : option PoseLandmarkerResult) (hand : option HandLandmarkerResult)
  (state : State.t) :
  In exercise ExerciseIds ->
  absent (modality exercise pose hand) ->
  evaluateFrame rt exercise pose hand state
  = Normal (Result.mk (State.rep state) (notVisibleStatus exercise) 0 None)
  /\ nextState state
       (Result.mk (State.rep state) (notVisibleStatus exercise) 0 None)
     = state.
Proof.
  intros Hid Habs. split; [ | apply nextState_unchanged ].
  apply absent_has_landmarks in Habs.
  apply In_ExerciseIds in Hid.
  destruct Hid as [-> | [-> | [-> | [-> | ->]]]]; cbn in Habs;
    unfold evaluateFrame, headLogic, fingerLogic, handLogic, legLogic,
      shoulderLogic; cbn [String.eqb Ascii.eqb Bool.eqb];
    rewrite Habs; reflexivity.
Qed.

Lemma evaluateFrame_absent_landmarks_witness :
  (In "leg"%string ExerciseIds
   /\ absent (modality "leg" (Some (mkLandmarkerResult [])) pinchedHand))
  /\ evaluateFrame RefRuntime.runtime "leg"
       (Some (mkLandmarkerResult [])) pinchedHand (State.mk 3 "up")
     = Normal (Result.mk 3 "Show full body to camera" 0 None).
Proof.
  assert (Hid : In "leg"%string ExerciseIds) by (cbn; tauto).
  assert (Habs : absent (modality "leg" (Some (mkLandmarkerResult []))
                           pinchedHand))
    by (right; reflexivity).
  split; [ split; assumption | ].
  exact (proj1 (evaluateFrame_absent_landmarks RefRuntime.runtime "leg"
                  (Some (mkLandmarkerResult [])) pinchedHand
                  (State.mk 3 "up") Hid Habs)).
Defined.

(** ** The repetition counter *)

(** Case analysis on every read, guard and branch of an analyzer body. *)
Ltac analyzer_cases :=
  repeat match goal with
    | |- context [bind ?c _] => destruct c; cbn [bind]
    | |- context [if ?c then _ else _] => destruct c
    | |- context [match ?p with (_, _) => _ end] => destruct p
    end.

Ltac rep_bounds :=
  analyzer_cases; intros [= <-]; cbn; lia.

Lemma headLogic_rep (rt : Runtime) (pose : option PoseLandmarkerResult)
  (state : State.t) (r : Result.t) :
  headLogic rt pose state = Normal r ->
  (State.rep state <= Result.rep r <= State.rep state + 1)%Z.
Proof. unfold headLogic. rep_bounds. Qed.

Lemma fingerLogic_rep (rt : Runtime) (hand : option HandLandmarkerResult)
  (state : State.t) (r : Result.t) :
  fingerLogic rt hand state = Normal r ->
  (State.rep state <= Result.rep r <= State.rep state + 1)%Z.
Proof. unfold fingerLogic. rep_bounds. Qed.

Lemma handLogic_rep (hand : option HandLandmarkerResult)
  (state : State.t) (r : Result.t) :
  handLogic hand state = Normal r ->
  (State.rep state <= Result.rep r <= State.rep state + 1)%Z.
Proof. unfold handLogic. rep_bounds. Qed.

Lemma legLogic_rep (rt : Runtime) (pose : option PoseLandmarkerResult)
  (state : State.t) (r : Result.t) :
  legLogic rt pose state = Normal r ->
  (State.rep state <= Result.rep r <= State.rep state + 1)%Z.
Proof. unfold legLogic. rep_bounds. Qed.

Lemma shoulderLogic_rep (rt : Runtime) (pose : option PoseLandmarkerResult)
  (state : State.t) (r : Result.t) :
  shoulderLogic rt pose state = Normal r ->
  (State.rep state <= Result.rep r <= State.rep state + 2)%Z.
Proof. unfold shoulderLogic. rep_bounds. Qed.

(** C4: whatever the landmark data and the prior state, a call that
    returns a result returns a rep that is at least the prior rep; the
    head, finger, hand and leg analyzers add at most 1 to it, and the
    shoulder analyzer adds 0, 1 or 2. *)
Theorem evaluateFrame_rep_monotone (rt : Runtime) (exercise : string)
  (pose : option PoseLandmarkerResult) (hand : option HandLandmarkerResult)
  (state : State.t) (r : Result.t) :
  evaluateFrame rt exercise pose hand state = Normal r ->
  (State.rep state <= Result.rep r <= State.rep state + maxStep exercise)%Z.
Proof.
  unfold evaluateFrame, maxStep.
  destruct (String.eqb_spec exercise "head") as [-> | _];
    [ apply headLogic_rep | ].
  destruct (String.eqb_spec exercise "finger") as [-> | _];
    [ apply fingerLogic_rep | ].
  destruct (String.eqb_spec exercise "hand") as [-> | _];
    [ apply handLogic_rep | ].
  destruct (String.eqb_spec exercise "leg") as [-> | _];
    [ apply legLogic_rep | ].
  destruct (String.eqb_spec exercise "shoulder") as [-> | _];
    [ apply shoulderLogic_rep | ].
  intros [= <-]; cbn; lia.
Qed.

Lemma evaluateFrame_rep_monotone_witness :
  evaluateFrame RefRuntime.runtime "shoulder" shruggedPose None
    (State.mk 3 "L0R0")
  = Normal (Result.mk 5 "L:135 deg R:135 deg" 100 (Some "L1R1"%string))
  /\ (3 <= 5 <= 3 + maxStep "shoulder")%Z.
Proof.
  assert (H : evaluateFrame RefRuntime.runtime "shoulder" shruggedPose None
                (State.mk 3 "L0R0")
              = Normal (Result.mk 5 "L:135 deg R:135 deg" 100
                          (Some "L1R1"%string)))
    by (vm_compute; reflexivity).
  split; [ exact H | ].
  exact (evaluateFrame_rep_monotone RefRuntime.runtime "shoulder"
           shruggedPose None (State.mk 3 "L0R0") _ H).
Defined.

(** The shoulder analyzer takes each of its three steps. *)
Example shoulderLogic_steps :
  (exists r, shoulderLogic RefRuntime.runtime sidewaysPose (State.mk 3 "L0R0")
             = Normal r /\ Result.rep r = 3%Z)
  /\ (exists r, shoulderLogic RefRuntime.runtime leftShrugPose
                  (State.mk 3 "L0R0") = Normal r /\ Result.rep r = 4%Z)
  /\ (exists r, shoulderLogic RefRuntime.runtime shruggedPose
                  (State.mk 3 "L0R0") = Normal r /\ Result.rep r = 5%Z).
Proof.
  repeat split; eexists; (split; [ vm_compute; reflexivity | reflexivity ]).
Qed.

(** ** Head turn *)

Lemma headSpan_items (lm : list NormalizedLandmark) (l r : NormalizedLandmark) :
  item lm 11 = Some l -> item lm 12 = Some r ->
  headSpan lm = Normal (Math_abs (x l - x r)).
Proof. intros Hl Hr. unfold headSpan. now rewrite Hl, Hr. Qed.

(** C9: when the two shoulder keypoints of a pose frame have equal [x],
    the head analyzer returns [{rep: state.rep, status: "Hold steady",
    quality: 0}] without a phase, for every prior state; the yaw, whose
    computation divides by the span, is not computed. *)
Theorem headLogic_zero_span (rt : Runtime) (pose : option PoseLandmarkerResult)
  (state : State.t) (l r : NormalizedLandmark) :
  has_landmarks pose = true ->
  item (first_landmarks pose) 11 = Some l ->
  item (first_landmarks pose) 12 = Some r ->
  (x l =? x r) = true \/ x l = x r ->
  headLogic rt pose state
  = Normal (Result.mk (State.rep state) "Hold steady" 0 None).
Proof.
  intros Hpose Hl Hr Heq. unfold headLogic.
  rewrite Hpose, (headSpan_items _ l r Hl Hr). cbn [negb bind].
  assert (Hspan : falsy (Math_abs (x l - x r)) = true).
  { destruct Heq as [Heq | Heq].
    - now apply sub_eqb_falsy.
    - rewrite Heq. apply sub_diag_falsy. }
  now rewrite Hspan.
Qed.

Lemma headLogic_zero_span_witness :
  (has_landmarks collapsedPose = true
   /\ item (first_landmarks collapsedPose) 11 = Some (mkLandmark 0.6 0.5)
   /\ item (first_landmarks collapsedPose) 12 = Some (mkLandmark 0.6 0.5)
   /\ ((0.6 =? 0.6) = true \/ 0.6 = 0.6))
  /\ headLogic RefRuntime.runtime collapsedPose (State.mk 3 "right")
     = Normal (Result.mk 3 "Hold steady" 0 None).
Proof.
  assert (H1 : has_landmarks collapsedPose = true) by reflexivity.
  assert (H2 : item (first_landmarks collapsedPose) 11
               = Some (mkLandmark 0.6 0.5)) by reflexivity.
  assert (H3 : item (first_landmarks collapsedPose) 12
               = Some (mkLandmark 0.6 0.5)) by reflexivity.
  assert (H4 : (x (mkLandmark 0.6 0.5) =? x (mkLandmark 0.6 0.5)) = true
               \/ x (mkLandmark 0.6 0.5) = x (mkLandmark 0.6 0.5))
    by (left; reflexivity).
  split; [ repeat split; assumption | ].
  exact (headLogic_zero_span RefRuntime.runtime collapsedPose
           (State.mk 3 "right") _ _ H1 H2 H3 H4).
Defined.

(** C2 (what the code does): from the prior phase "left", a pose frame
    whose yaw exceeds 25 degrees makes the head analyzer return the phase
    "right" with the rep unchanged.  The first branch of the chain takes
    every yaw above the threshold whose phase is not "right", so the
    branch that would count the left-to-right sweep is never reached. *)
Theorem headLogic_left_to_right (rt : Runtime)
  (pose : option PoseLandmarkerResult) (state : State.t) (span yaw : float) :
  has_landmarks pose = true ->
  headSpan (first_landmarks pose) = Normal span ->
  falsy span = false ->
  headYaw rt (first_landmarks pose) span = Normal yaw ->
  gtb yaw 25 = true ->
  State.phase state = "left"%string ->
  headLogic rt pose state
  = Normal (Result.mk (State.rep state)
              ("Yaw " ++ toFixed rt yaw 1 ++ " deg")
              (Math_min 100 (Math_max 0 (Math_abs yaw / 25 * 70)))
              (Some "right"%string)).
Proof.
  intros Hpose Hspan Htruthy Hyaw Hgt Hphase. unfold headLogic.
  rewrite Hpose, Hspan. cbn [negb bind].
  rewrite Htruthy, Hyaw. cbn [bind].
  rewrite Hgt, Hphase. reflexivity.
Qed.

Lemma headLogic_left_to_right_witness :
  (has_landmarks turnedPose = true
   /\ headSpan (first_landmarks turnedPose) = Normal (Math_abs (0.6 - 0.4))
   /\ falsy (Math_abs (0.6 - 0.4)) = false
   /\ headYaw RefRuntime.runtime (first_landmarks turnedPose)
        (Math_abs (0.6 - 0.4)) = Normal 90
   /\ gtb 90 25 = true)
  /\ headLogic RefRuntime.runtime turnedPose (State.mk 3 "left")
     = Normal (Result.mk 3 "Yaw 90.0 deg" 100 (Some "right"%string)).
Proof.
  assert (H1 : has_landmarks turnedPose = true) by reflexivity.
  assert (H2 : headSpan (first_landmarks turnedPose)
               = Normal (Math_abs (0.6 - 0.4))) by reflexivity.
  assert (H3 : falsy (Math_abs (0.6 - 0.4)) = false)
    by (vm_compute; reflexivity).
  assert (H4 : headYaw RefRuntime.runtime (first_landmarks turnedPose)
                 (Math_abs (0.6 - 0.4)) = Normal 90)
    by (vm_compute; reflexivity).
  assert (H5 : gtb 90 25 = true) by reflexivity.
  split; [ repeat split; assumption | ].
  refine (eq_trans
            (headLogic_left_to_right RefRuntime.runtime turnedPose
               (State.mk 3 "left") _ _ H1 H2 H3 H4 H5 eq_refl) _).
  vm_compute. reflexivity.
Defined.

(** The opposite sweep is counted: from the prior phase "right", a frame
    whose yaw is below -25 degrees gives rep = prior rep + 1 and the phase
    "left". *)
Lemma headLogic_right_to_left (rt : Runtime)
  (pose : option PoseLandmarkerResult) (state : State.t) (span yaw : float) :
  has_landmarks pose = true ->
  headSpan (first_landmarks pose) = Normal span ->
  falsy span = false ->
  headYaw rt (first_landmarks pose) span = Normal yaw ->
  (yaw <? -25) = true ->
  State.phase state = "right"%string ->
  headLogic rt pose state
  = Normal (Result.mk (State.rep state + 1)
              ("Yaw " ++ toFixed rt yaw 1 ++ " deg")
              (Math_min 100 (Math_max 0 (Math_abs yaw / 25 * 70)))
              (Some "left"%string)).
Proof.
  intros Hpose Hspan Htruthy Hyaw Hlt Hphase. unfold headLogic.
  rewrite Hpose, Hspan. cbn [negb bind].
  rewrite Htruthy, Hyaw. cbn [bind].
  rewrite Hphase. change (- (25))%float with (-25)%float. rewrite Hlt.
  destruct (gtb yaw 25); reflexivity.
Qed.

(** Three sweeps in a row, the caller carrying the counters: the
    right-to-left sweep adds 1, the left-to-right sweep after it adds
    nothing. *)
Example headLogic_sweeps :
  headLogic RefRuntime.runtime turnedPose (State.mk 3 "idle")
  = Normal (Result.mk 3 "Yaw 90.0 deg" 100 (Some "right"%string))
  /\ headLogic RefRuntime.runtime turnedBackPose (State.mk 3 "right")
     = Normal (Result.mk 4 "Yaw -90.0 deg" 100 (Some "left"%string))
  /\ headLogic RefRuntime.runtime turnedPose (State.mk 4 "left")
     = Normal (Result.mk 4 "Yaw 90.0 deg" 100 (Some "right"%string))
  /\ nextState (State.mk 3 "idle")
       (Result.mk 3 "Yaw 90.0 deg" 100 (Some "right"%string))
     = State.mk 3 "right"
  /\ nextState (State.mk 3 "right")
       (Result.mk 4 "Yaw -90.0 deg" 100 (Some "left"%string))
     = State.mk 4 "left".
Proof. repeat split; vm_compute; reflexivity. Qed.

(** ** Shoulder raise *)

(** C8: from the prior phase "L0R0", a pose frame whose left and right
    elevation angles both exceed the 60 degree lift threshold makes the
    shoulder analyzer return rep = prior rep + 2 and the phase "L1R1" in
    that one call. *)
Theorem shoulderLogic_both_sides (rt : Runtime)
  (pose : option PoseLandmarkerResult) (state : State.t)
  (lAngle rAngle : float) :
  has_landmarks pose = true ->
  shoulderAngles (first_landmarks pose) = Normal (lAngle, rAngle) ->
  gtb lAngle 60 = true ->
  gtb rAngle 60 = true ->
  State.phase state = "L0R0"%string ->
  exists r : Result.t,
    shoulderLogic rt pose state = Normal r
    /\ Result.rep r = (State.rep state + 2)%Z
    /\ Result.phase r = Some "L1R1"%string.
Proof.
  intros Hpose Hangles Hl Hr Hphase. unfold shoulderLogic.
  rewrite Hpose, Hangles, Hphase. cbn [negb bind].
  apply ltb_leb in Hl, Hr. unfold geb.
  replace (includes "L0R0" "L1") with false by reflexivity.
  replace (includes "L0R0" "R1") with false by reflexivity.
  cbn [negb andb]. rewrite Hl, Hr.
  eexists. split; [ reflexivity | ]. cbn. split; [ lia | reflexivity ].
Qed.

Lemma shoulderLogic_both_sides_witness :
  (has_landmarks shruggedPose = true
   /\ shoulderAngles (first_landmarks shruggedPose)
      = Normal (135.02248875562219, 135.02248875562219)
   /\ gtb 135.02248875562219 60 = true)
  /\ exists r : Result.t,
       shoulderLogic RefRuntime.runtime shruggedPose (State.mk 3 "L0R0")
       = Normal r
       /\ Result.rep r = (3 + 2)%Z
       /\ Result.phase r = Some "L1R1"%string.
Proof.
  assert (H1 : has_landmarks shruggedPose = true) by reflexivity.
  assert (H2 : shoulderAngles (first_landmarks shruggedPose)
               = Normal (135.02248875562219, 135.02248875562219))
    by (vm_compute; reflexivity).
  assert (H3 : gtb 135.02248875562219 60 = true) by reflexivity.
  split; [ repeat split; assumption | ].
  exact (shoulderLogic_both_sides RefRuntime.runtime shruggedPose
           (State.mk 3 "L0R0") _ _ H1 H2 H3 H3 eq_refl).
Defined.

Lemma shoulderLogic_phase (rt : Runtime) (pose : option PoseLandmarkerResult)
  (state : State.t) (r : Result.t) :
  has_landmarks pose = true ->
  shoulderLogic rt pose state = Normal r ->
  exists p : string, Result.phase r = Some p /\ In p shoulderPhases.
Proof.
  intros Hpose. unfold shoulderLogic. rewrite Hpose. cbn [negb].
  analyzer_cases; intros [= <-]; cbn; eexists; (split; [ reflexivity | ]);
    cbn; tauto.
Qed.

Lemma shoulderLogic_foreign_phase (rt : Runtime)
  (pose : option PoseLandmarkerResult) (state : State.t) :
  includes (State.phase state) "L1" = false ->
  includes (State.phase state) "R1" = false ->
  shoulderLogic rt pose state
  = shoulderLogic rt pose (State.mk (State.rep state) "L0R0").
Proof.
  intros HL HR. unfold shoulderLogic. cbn [State.rep State.phase].
  rewrite HL, HR. reflexivity.
Qed.

(** C10: given a present pose landmark set, every phase the shoulder
    analyzer returns is one of "L0R0", "L1R0", "L0R1" and "L1R1", whatever
    string the prior phase is; and a prior phase that contains neither
    "L1" nor "R1" gives exactly the result the prior phase "L0R0" gives. *)
Theorem shoulderLogic_phase_shape (rt : Runtime)
  (pose : option PoseLandmarkerResult) (state : State.t) :
  has_landmarks pose = true ->
  (forall r : Result.t,
      shoulderLogic rt pose state = Normal r ->
      exists p : string, Result.phase r = Some p /\ In p shoulderPhases)
  /\ (includes (State.phase state) "L1" = false ->
      includes (State.phase state) "R1" = false ->
      shoulderLogic rt pose state
      = shoulderLogic rt pose (State.mk (State.rep state) "L0R0")).
Proof.
  intros Hpose. split.
  - intros r. now apply shoulderLogic_phase.
  - apply shoulderLogic_foreign_phase.
Qed.

Lemma shoulderLogic_phase_shape_witness :
  (has_landmarks leftShrugPose = true
   /\ includes "pinched" "L1" = false /\ includes "pinched" "R1" = false)
  /\ shoulderLogic RefRuntime.runtime leftShrugPose (State.mk 3 "pinched")
     = Normal (Result.mk 4 "L:135 deg R:45 deg" 100 (Some "L1R0"%string))
  /\ shoulderLogic RefRuntime.runtime leftShrugPose (State.mk 3 "pinched")
     = shoulderLogic RefRuntime.runtime leftShrugPose (State.mk 3 "L0R0")
  /\ exists p : string, Some "L1R0"%string = Some p /\ In p shoulderPhases.
Proof.
  assert (H1 : has_landmarks leftShrugPose = true) by reflexivity.
  assert (H2 : includes "pinched" "L1" = false) by reflexivity.
  assert (H3 : includes "pinched" "R1" = false) by reflexivity.
  assert (H4 : shoulderLogic RefRuntime.runtime leftShrugPose
                 (State.mk 3 "pinched")
               = Normal (Result.mk 4 "L:135 deg R:45 deg" 100
                           (Some "L1R0"%string)))
    by (vm_compute; reflexivity).
  split; [ repeat split; assumption | ].
  split; [ exact H4 | ].
  split.
  - exact (proj2 (shoulderLogic_phase_shape RefRuntime.runtime leftShrugPose
                    (State.mk 3 "pinched") H1) H2 H3).
  - exact (proj1 (shoulderLogic_phase_shape RefRuntime.runtime leftShrugPose
                    (State.mk 3 "pinched") H1) _ H4).
Defined.

(** ** Finger pinch *)

Lemma fingerLogic_result (rt : Runtime) (hand : option HandLandmarkerResult)
  (state : State.t) (norm : float) :
  has_landmarks hand = true ->
  fingerNorm rt (first_landmarks hand) = Normal norm ->
  exists r : Result.t,
    fingerLogic rt hand state = Normal r
    /\ Result.quality r = Math_max 0 (Math_min 100 ((0.45 - norm) * 200))
    /\ ((norm <? 0.25) = true ->
        Result.rep r = State.rep state
        /\ Result.phase r = Some "pinched"%string)
    /\ (gtb norm 0.45 = true ->
        State.phase state = "pinched"%string ->
        Result.rep r = (State.rep state + 1)%Z
        /\ Result.phase r = Some "released"%string).
Proof.
  intros Hhand Hnorm. unfold fingerLogic.
  rewrite Hhand, Hnorm. cbn [negb bind].
  destruct (norm <? 0.25) eqn:Hlt.
  - (* a gap below 0.25 is not above 0.45 *)
    assert (Hgt : gtb norm 0.45 = false).
    { unfold gtb. apply (ltb_ltb_not_gtb norm 0.25 0.45 Hlt).
      vm_compute. reflexivity. }
    rewrite Hgt. cbn [andb]. eexists. split; [ reflexivity | ].
    cbn. repeat split; intros; try discriminate; reflexivity.
  - destruct (gtb norm 0.45) eqn:Hgt; cbn [andb].
    + destruct (String.eqb_spec (State.phase state) "pinched") as [Hp | Hp];
        eexists; (split; [ reflexivity | ]); cbn;
        repeat split; intros; try discriminate; try reflexivity; tauto.
    + eexists. split; [ reflexivity | ]. cbn.
      repeat split; intros; discriminate.
Qed.

(** C7: for every prior state, a hand frame whose normalized gap is below
    0.25 gives the phase "pinched" with the rep unchanged; a frame whose
    gap is above 0.45 while the phase is "pinched" gives rep = prior rep
    + 1 and the phase "released"; the quality is
    max(0, min(100, (0.45 - norm) * 200)), which is exactly 70 when the
    gap is 0.1. *)
Theorem fingerLogic_pinch_release (rt : Runtime)
  (hand : option HandLandmarkerResult) (state : State.t) (norm : float) :
  has_landmarks hand = true ->
  fingerNorm rt (first_landmarks hand) = Normal norm ->
  exists r : Result.t,
    fingerLogic rt hand state = Normal r
    /\ Result.quality r = Math_max 0 (Math_min 100 ((0.45 - norm) * 200))
    /\ (norm = 0.1 -> Result.quality r = 70)
    /\ ((norm <? 0.25) = true ->
        Result.rep r = State.rep state
        /\ Result.phase r = Some "pinched"%string)
    /\ (gtb norm 0.45 = true ->
        State.phase state = "pinched"%string ->
        Result.rep r = (State.rep state + 1)%Z
        /\ Result.phase r = Some "released"%string).
Proof.
  intros Hhand Hnorm.
  destruct (fingerLogic_result rt hand state norm Hhand Hnorm)
    as (r & Hr & Hq & Hpinch & Hrelease).
  exists r. repeat split; try assumption; try (now apply Hpinch);
    try (now apply Hrelease).
  intros ->. rewrite Hq. vm_compute. reflexivity.
Qed.

Lemma fingerLogic_pinch_release_witness :
  (has_landmarks pinchedHand = true
   /\ fingerNorm RefRuntime.runtime (first_landmarks pinchedHand)
      = Normal 0.1)
  /\ exists r : Result.t,
       fingerLogic RefRuntime.runtime pinchedHand (State.mk 3 "idle")
       = Normal r
       /\ Result.quality r = Math_max 0 (Math_min 100 ((0.45 - 0.1) * 200))
       /\ (0.1 = 0.1 -> Result.quality r = 70)
       /\ ((0.1 <? 0.25) = true ->
           Result.rep r = 3%Z /\ Result.phase r = Some "pinched"%string)
       /\ (gtb 0.1 0.45 = true ->
           "idle"%string = "pinched"%string ->
           Result.rep r = (3 + 1)%Z
           /\ Result.phase r = Some "released"%string).
Proof.
  assert (H1 : has_landmarks pinchedHand = true) by reflexivity.
  assert (H2 : fingerNorm RefRuntime.runtime (first_landmarks pinchedHand)
               = Normal 0.1) by (vm_compute; reflexivity).
  split; [ split; assumption | ].
  exact (fingerLogic_pinch_release RefRuntime.runtime pinchedHand
           (State.mk 3 "idle") 0.1 H1 H2).
Defined.

(** A pinch followed by a release, the caller carrying the counters from
    one frame to the next, counts one repetition. *)
Lemma fingerLogic_pinch_then_release (rt : Runtime)
  (hand1 hand2 : option HandLandmarkerResult) (state : State.t)
  (norm1 norm2 : float) :
  has_landmarks hand1 = true ->
  fingerNorm rt (first_landmarks hand1) = Normal norm1 ->
  (norm1 <? 0.25) = true ->
  has_landmarks hand2 = true ->
  fingerNorm rt (first_landmarks hand2) = Normal norm2 ->
  gtb norm2 0.45 = true ->
  exists r1 r2 : Result.t,
    fingerLogic rt hand1 state = Normal r1
    /\ fingerLogic rt hand2 (nextState state r1) = Normal r2
    /\ Result.rep r2 = (State.rep state + 1)%Z
    /\ Result.phase r2 = Some "released"%string.
Proof.
  intros Hh1 Hn1 Hlt Hh2 Hn2 Hgt.
  destruct (fingerLogic_result rt hand1 state norm1 Hh1 Hn1)
    as (r1 & Hr1 & _ & Hpinch & _).
  destruct (Hpinch Hlt) as [Hrep1 Hphase1].
  assert (Hnext : nextState state r1 = State.mk (State.rep state) "pinched").
  { unfold nextState. rewrite Hrep1, Hphase1, Z.eqb_refl.
    destruct (String.eqb_spec "pinched" (State.phase state)) as [<- | _];
      reflexivity. }
  destruct (fingerLogic_result rt hand2 (nextState state r1) norm2 Hh2 Hn2)
    as (r2 & Hr2 & _ & _ & Hrelease).
  rewrite Hnext in Hrelease. destruct (Hrelease Hgt eq_refl) as [Hrep2 Hphase2].
  exists r1, r2. repeat split; assumption.
Qed.

Example fingerLogic_pinch_then_release_run :
  fingerLogic RefRuntime.runtime pinchedHand (State.mk 3 "idle")
  = Normal (Result.mk 3 "Pinch gap 10%" 70 (Some "pinched"%string))
  /\ fingerLogic RefRuntime.runtime releasedHand
       (nextState (State.mk 3 "idle")
          (Result.mk 3 "Pinch gap 10%" 70 (Some "pinched"%string)))
     = Normal (Result.mk 4 "Pinch gap 50%" 0 (Some "released"%string)).
Proof. split; vm_compute; reflexivity. Qed.

(** C3 (as the code has it): the normalized pinch gap is the
    thumb-to-index distance divided by the wrist-to-thumb scale reference
    itself whenever that reference is truthy (neither zero nor NaN), and
    by 0.1 only when it is falsy; the denominator is therefore never zero
    and never NaN, but it is not bounded below by 0.1. *)
Theorem fingerNorm_denominator (rt : Runtime) (lm : list NormalizedLandmark)
  (span pinch : float) :
  distance rt (item lm 4) (item lm 0) = Normal span ->
  distance rt (item lm 4) (item lm 8) = Normal pinch ->
  fingerNorm rt lm = Normal (pinch / (if falsy span then 0.1 else span))
  /\ falsy (if falsy span then 0.1 else span) = false.
Proof.
  intros Hspan Hpinch. unfold fingerNorm. rewrite Hspan, Hpinch.
  split; [ reflexivity | ].
  destruct (falsy span) eqn:Hf; [ reflexivity | exact Hf ].
Qed.

Lemma fingerNorm_denominator_witness :
  (distance RefRuntime.runtime (item (first_landmarks smallHand) 4)
     (item (first_landmarks smallHand) 0) = Normal 0.05
   /\ distance RefRuntime.runtime (item (first_landmarks smallHand) 4)
        (item (first_landmarks smallHand) 8) = Normal 0.01)
  /\ fingerNorm RefRuntime.runtime (first_landmarks smallHand)
     = Normal (0.01 / 0.05).
Proof.
  assert (H1 : distance RefRuntime.runtime
                 (item (first_landmarks smallHand) 4)
                 (item (first_landmarks smallHand) 0) = Normal 0.05)
    by (vm_compute; reflexivity).
  assert (H2 : distance RefRuntime.runtime
                 (item (first_landmarks smallHand) 4)
                 (item (first_landmarks smallHand) 8) = Normal 0.01)
    by (vm_compute; reflexivity).
  split; [ split; assumption | ].
  exact (proj1 (fingerNorm_denominator RefRuntime.runtime
                  (first_landmarks smallHand) 0.05 0.01 H1 H2)).
Defined.

(** C3 as stated fails on [smallHand]: the scale reference is 0.05, the
    denominator the code divides by is 0.05 and lies below 0.1, and the
    normalized gap is 0.01 / 0.05 rather than 0.01 / 0.1. *)
Lemma fingerNorm_no_floor :
  distance RefRuntime.runtime (item (first_landmarks smallHand) 4)
    (item (first_landmarks smallHand) 0) = Normal 0.05
  /\ distance RefRuntime.runtime (item (first_landmarks smallHand) 4)
       (item (first_landmarks smallHand) 8) = Normal 0.01
  /\ fingerDenominator 0.05 = 0.05
  /\ (fingerDenominator 0.05 <? 0.1) = true
  /\ flooredDenominator 0.05 = 0.1
  /\ fingerNorm RefRuntime.runtime (first_landmarks smallHand)
     <> Normal (0.01 / flooredDenominator 0.05).
Proof.
  repeat split; try (vm_compute; reflexivity).
  intros H. vm_compute in H. discriminate H.
Qed.

(** ** Quality *)

Lemma ltb_false_rank (a b : float) :
  (a <? b) = false <-> ~ rank_lt (rank a) (rank b).
Proof.
  rewrite <- ltb_rank. destruct (a <? b); split; intros; try discriminate;
    try reflexivity; tauto.
Qed.

Lemma is_nan_false_rank (a : float) : is_nan a = false <-> rank a <> None.
Proof.
  rewrite <- is_nan_rank. destruct (is_nan a); split; intros;
    try discriminate; try reflexivity; tauto.
Qed.

Ltac max_min_cases a b :=
  intros Ha Hb;
  assert (Hna : is_nan a = false) by (apply is_nan_false_rank; congruence);
  assert (Hnb : is_nan b = false) by (apply is_nan_false_rank; congruence);
  rewrite Hna, Hnb; cbn [orb];
  destruct (a <? b) eqn:Hab;
  [ apply ltb_rank in Hab
  | apply ltb_false_rank in Hab;
    destruct (b <? a) eqn:Hba;
    [ apply ltb_rank in Hba
    | apply ltb_false_rank in Hba; destruct (get_sign a) ] ];
  rewrite Ha, Hb in *; eexists; (split; [ reflexivity | ]);
  unfold lex_le;
  repeat match goal with
    | r : (Z * Z * Z)%type |- _ => destruct r as [[? ?] ?]
    end;
  cbn in *;
  repeat split; auto;
  try (left; lia);
  try (right; reflexivity);
  try (right; f_equal; [ f_equal | ]; lia).

Lemma Math_max_rank (a b : float) (ra rb : Z * Z * Z) :
  rank a = Some ra -> rank b = Some rb ->
  exists r, rank (Math_max a b) = Some r
            /\ (r = ra \/ r = rb) /\ lex_le ra r /\ lex_le rb r.
Proof. unfold Math_max. max_min_cases a b. Qed.

Lemma Math_min_rank (a b : float) (ra rb : Z * Z * Z) :
  rank a = Some ra -> rank b = Some rb ->
  exists r, rank (Math_min a b) = Some r
            /\ (r = ra \/ r = rb) /\ lex_le r ra /\ lex_le r rb.
Proof. unfold Math_min. max_min_cases a b. Qed.

Lemma Math_max_nan (a b : float) :
  rank a = None \/ rank b = None -> Math_max a b = nan.
Proof.
  intros H. unfold Math_max.
  replace (is_nan a || is_nan b) with true; [ reflexivity | ].
  symmetry. apply orb_true_iff. now rewrite !is_nan_rank.
Qed.

Lemma Math_min_nan (a b : float) :
  rank a = None \/ rank b = None -> Math_min a b = nan.
Proof.
  intros H. unfold Math_min.
  replace (is_nan a || is_nan b) with true; [ reflexivity | ].
  symmetry. apply orb_true_iff. now rewrite !is_nan_rank.
Qed.

Lemma in_range_rank (q : float) (r : Z * Z * Z) :
  rank q = Some r ->
  lex_le (0, 0, 0)%Z r -> lex_le r (1, -46, 7036874417766400)%Z ->
  in_range q.
Proof.
  intros Hq H0 H100. unfold in_range. rewrite !leb_rank, Hq.
  change (rank 0) with (Some (0, 0, 0)%Z).
  change (rank 100) with (Some (1, -46, 7036874417766400)%Z).
  unfold rank_le, rank_lt, rank_eq, lex_le in *.
  destruct H0 as [H0 | <-], H100 as [H100 | H100]; auto.
Qed.

(** [min(100, max(0, v))] and [max(0, min(100, v))] are within the range
    unless [v] is [NaN], and then they are [NaN]. *)
Lemma clamp_min_max (v : float) :
  (is_nan v = false /\ in_range (Math_min 100 (Math_max 0 v)))
  \/ (is_nan v = true /\ Math_min 100 (Math_max 0 v) = nan).
Proof.
  destruct (rank v) as [rv |] eqn:Hv.
  - left. split; [ apply is_nan_false_rank; congruence | ].
    destruct (Math_max_rank 0 v _ rv eq_refl Hv) as (r1 & H1 & _ & Hlo & _).
    destruct (Math_min_rank 100 (Math_max 0 v) _ r1 eq_refl H1)
      as (r2 & H2 & [-> | ->] & Hhi & _).
    + apply (in_range_rank _ _ H2); [ left; cbn; lia | exact Hhi ].
    + apply (in_range_rank _ _ H2); [ exact Hlo | exact Hhi ].
  - right. split; [ now apply is_nan_rank | ].
    rewrite (Math_max_nan 0 v) by auto. reflexivity.
Qed.

Lemma clamp_max_min (v : float) :
  (is_nan v = false /\ in_range (Math_max 0 (Math_min 100 v)))
  \/ (is_nan v = true /\ Math_max 0 (Math_min 100 v) = nan).
Proof.
  destruct (rank v) as [rv |] eqn:Hv.
  - left. split; [ apply is_nan_false_rank; congruence | ].
    destruct (Math_min_rank 100 v _ rv eq_refl Hv) as (r1 & H1 & _ & Hhi & _).
    destruct (Math_max_rank 0 (Math_min 100 v) _ r1 eq_refl H1)
      as (r2 & H2 & [-> | ->] & Hlo & _).
    + apply (in_range_rank _ _ H2); [ exact Hlo | left; cbn; lia ].
    + apply (in_range_rank _ _ H2); [ exact Hlo | exact Hhi ].
  - right. split; [ now apply is_nan_rank | ].
    rewrite (Math_min_nan 100 v) by auto. reflexivity.
Qed.

Lemma in_range_0 : in_range 0.
Proof. split; reflexivity. Qed.

(** The caller's [safeQuality] is within the range for every number,
    [NaN] included. *)
Lemma safeQuality_range (q : float) : in_range (safeQuality q).
Proof.
  unfold safeQuality.
  assert (Hnan : is_nan (or_else q 0) = false).
  { unfold or_else, falsy. destruct (is_zero q); [ reflexivity | ].
    destruct (is_nan q) eqn:Hq; [ reflexivity | exact Hq ]. }
  destruct (clamp_max_min (or_else q 0)) as [[_ H] | [H _]];
    [ exact H | congruence ].
Qed.

Lemma headLogic_quality (rt : Runtime) (pose : option PoseLandmarkerResult)
  (state : State.t) (r : Result.t) :
  headLogic rt pose state = Normal r ->
  in_range (Result.quality r) \/ Result.quality r = nan.
Proof.
  unfold headLogic.
  destruct (negb (has_landmarks pose));
    [ intros [= <-]; left; apply in_range_0 | ].
  destruct (headSpan _) as [span | ]; cbn [bind]; [ | discriminate ].
  destruct (falsy span); [ intros [= <-]; left; apply in_range_0 | ].
  destruct (headYaw _ _ _) as [yaw | ]; cbn [bind]; [ | discriminate ].
  match goal with
  | |- context [Math_min 100 (Math_max 0 ?v)] =>
      pose proof (clamp_min_max v) as Hq
  end.
  analyzer_cases; intros [= <-]; cbn; tauto.
Qed.

Lemma fingerLogic_quality (rt : Runtime) (hand : option HandLandmarkerResult)
  (state : State.t) (r : Result.t) :
  fingerLogic rt hand state = Normal r ->
  in_range (Result.quality r) \/ Result.quality r = nan.
Proof.
  unfold fingerLogic.
  destruct (negb (has_landmarks hand));
    [ intros [= <-]; left; apply in_range_0 | ].
  destruct (fingerNorm _ _) as [norm | ]; cbn [bind]; [ | discriminate ].
  pose proof (clamp_max_min ((0.45 - norm) * 200)) as Hq.
  analyzer_cases; intros [= <-]; cbn; tauto.
Qed.

Lemma legLogic_quality (rt : Runtime) (pose : option PoseLandmarkerResult)
  (state : State.t) (r : Result.t) :
  legLogic rt pose state = Normal r ->
  in_range (Result.quality r) \/ Result.quality r = nan.
Proof.
  unfold legLogic.
  destruct (negb (has_landmarks pose));
    [ intros [= <-]; left; apply in_range_0 | ].
  destruct (get_y _) as [ky | ]; cbn [bind]; [ | discriminate ].
  destruct (get_y _) as [hy | ]; cbn [bind]; [ | discriminate ].
  destruct (angleDeg _ _ _ _) as [ang | ]; cbn [bind];
    [ | analyzer_cases; discriminate ].
  pose proof (clamp_min_max ((180 - ang) * 1.2)) as Hq.
  analyzer_cases; intros [= <-]; cbn; tauto.
Qed.

Lemma count_extended_le (tips mcp : list (option NormalizedLandmark)) (n : nat) :
  count_extended tips mcp = Normal n -> (n <= length tips)%nat.
Proof.
  revert mcp n. induction tips as [ | t tips IH]; intros mcp n; cbn.
  - intros [= <-]. lia.
  - destruct mcp as [ | m mcp]; [ intros [= <-]; lia | ].
    destruct (get_y t); cbn [bind]; [ | discriminate ].
    destruct (get_y m); cbn [bind]; [ | discriminate ].
    destruct (count_extended tips mcp) as [k | ] eqn:Hk; cbn [bind];
      [ | discriminate ].
    specialize (IH mcp k Hk).
    destruct (_ <? _); intros [= <-]; lia.
Qed.

Lemma handLogic_quality (hand : option HandLandmarkerResult)
  (state : State.t) (r : Result.t) :
  handLogic hand state = Normal r -> in_range (Result.quality r).
Proof.
  unfold handLogic.
  destruct (negb (has_landmarks hand));
    [ intros [= <-]; apply in_range_0 | ].
  destruct (count_extended _ _) as [n | ] eqn:Hn; cbn [bind];
    [ | discriminate ].
  apply count_extended_le in Hn. cbn [length map] in Hn.
  assert (Hq : in_range (Math_min 100 (of_nat n * 25))).
  { do 5 (destruct n as [ | n]; [ split; vm_compute; reflexivity | ]). lia. }
  analyzer_cases; intros [= <-]; exact Hq.
Qed.

(** The shoulder analyzer bounds its quality from above only. *)
Lemma shoulderLogic_quality (rt : Runtime) (pose : option PoseLandmarkerResult)
  (state : State.t) (r : Result.t) :
  shoulderLogic rt pose state = Normal r ->
  (Result.quality r <=? 100) = true \/ Result.quality r = nan.
Proof.
  unfold shoulderLogic.
  destruct (negb (has_landmarks pose));
    [ intros [= <-]; left; reflexivity | ].
  destruct (shoulderAngles _) as [[lAngle rAngle] | ]; cbn [bind];
    [ | discriminate ].
  assert (Hq : (Math_min 100 (Math_max lAngle rAngle / 1.2) <=? 100) = true
               \/ Math_min 100 (Math_max lAngle rAngle / 1.2) = nan).
  { destruct (rank (Math_max lAngle rAngle / 1.2)) as [rv | ] eqn:Hv.
    - left.
      destruct (Math_min_rank 100 _ _ rv eq_refl Hv) as (r1 & H1 & _ & Hhi & _).
      apply leb_rank. rewrite H1.
      change (rank 100) with (Some (1, -46, 7036874417766400)%Z).
      destruct Hhi as [Hhi | ->]; [ left; exact Hhi | right; reflexivity ].
    - right. apply Math_min_nan. now right. }
  analyzer_cases; intros [= <-]; exact Hq.
Qed.

(** C1 (what the code does): on [sidewaysPose], where the ears are
    farther above the shoulders than the shoulders are apart, the shoulder
    analyzer returns a negative quality, about -149.7, for every runtime
    and every prior state; its min(100, ...) has no lower clamp. *)
Theorem shoulderLogic_quality_negative (rt : Runtime) (state : State.t) :
  exists r : Result.t,
    shoulderLogic rt sidewaysPose state = Normal r
    /\ Result.quality r = -149.70029970029961
    /\ (Result.quality r <? 0) = true.
Proof.
  unfold shoulderLogic.
  replace (has_landmarks sidewaysPose) with true by reflexivity.
  replace (shoulderAngles (first_landmarks sidewaysPose))
    with (Normal (-179.64035964035952, -179.64035964035952))
    by (vm_compute; reflexivity).
  cbn [negb bind].
  analyzer_cases; eexists; (split; [ reflexivity | ]);
    split; vm_compute; reflexivity.
Qed.


(** ** Calls that return *)

Lemma item_in_range (lm : list NormalizedLandmark) (n i : nat) :
  (n <= length lm)%nat -> (i < n)%nat -> exists l, item lm i = Some l.
Proof.
  intros Hn Hi. unfold item.
  destruct (nth_error lm i) as [l | ] eqn:Hl; [ now exists l | ].
  apply nth_error_None in Hl. lia.
Qed.

Ltac read_items Hlen :=
  repeat match goal with
    | |- context [item ?lm ?i] =>
        let l := fresh "l" in
        let H := fresh "H" in
        destruct (item_in_range lm _ i Hlen) as [l H]; [ lia | ];
        rewrite !H
    end.

(** On what the detectors produce (no subject, or the full list of 33
    pose landmarks and 21 hand landmarks) [evaluateFrame] returns a result
    for every identifier and every prior state: it does not throw. *)
Lemma evaluateFrame_returns (rt : Runtime) (exercise : string)
  (pose : option PoseLandmarkerResult) (hand : option HandLandmarkerResult)
  (state : State.t) :
  listsAtLeast 33 pose -> listsAtLeast 21 hand ->
  exists r : Result.t, evaluateFrame rt exercise pose hand state = Normal r.
Proof.
  unfold listsAtLeast. intros Hpose Hhand.
  unfold evaluateFrame, headLogic, fingerLogic, handLogic, legLogic,
    shoulderLogic, headSpan, headYaw, fingerNorm, shoulderAngles, distance,
    angleDeg.
  destruct (has_landmarks pose);
    [ specialize (Hpose eq_refl) | clear Hpose ];
    (destruct (has_landmarks hand);
     [ specialize (Hhand eq_refl) | clear Hhand ]);
    cbn [negb map];
    try read_items Hpose; try read_items Hhand;
    repeat first
      [ progress cbn [bind get_x get_y count_extended]
      | match goal with
        | |- context [if ?c then _ else _] => destruct c
        end ];
    eexists; reflexivity.
Qed.


(** * Further properties of the engine *)

(** ** More on the order of numbers *)

(** [b <= c] and [a < b] exclude [c < a]. *)
Lemma leb_ltb_not_ltb (a b c : float) :
  (b <=? c) = true -> (a <? b) = true -> (c <? a) = false.
Proof.
  intros Hbc Hab. apply not_true_is_false. intros Hca.
  apply leb_rank in Hbc. apply ltb_rank in Hab, Hca.
  unfold rank_le in Hbc.
  destruct (rank a) as [[[? ?] ?]|], (rank b) as [[[? ?] ?]|],
    (rank c) as [[[? ?] ?]|]; cbn in *; try tauto.
  destruct Hbc as [Hbc | Hbc]; [ lia | injection Hbc as -> -> ->; lia ].
Qed.

(** [a < b] and [b < c] exclude [c <= a]. *)
Lemma ltb_ltb_not_leb (a b c : float) :
  (a <? b) = true -> (b <? c) = true -> (c <=? a) = false.
Proof.
  intros Hab Hbc. apply not_true_is_false. intros Hca.
  apply leb_rank in Hca. apply ltb_rank in Hab, Hbc.
  unfold rank_le in Hca.
  destruct (rank a) as [[[? ?] ?]|], (rank b) as [[[? ?] ?]|],
    (rank c) as [[[? ?] ?]|]; cbn in *; try tauto.
  destruct Hca as [Hca | Hca]; [ lia | injection Hca as -> -> ->; lia ].
Qed.

(** The difference of two equal numbers is falsy. *)
Lemma SFsub_eqb_raw (f g : spec_float) :
  SFeqb f g = true ->
  SFrank (SF64sub f g) = Some (0, 0, 0)%Z \/ SFrank (SF64sub f g) = None.
Proof.
  unfold SFeqb.
  destruct f as [sf | sf | | sf mf ef], g as [sg | sg | | sg mg eg];
    try destruct sf; try destruct sg; cbn; auto; try discriminate.
  all: change (Pos.compare_cont Eq mf mg) with (Pos.compare mf mg).
  all: destruct (Z.compare_spec ef eg), (Pos.compare_spec mf mg);
    cbn; try discriminate; subst; intros _.
  all: rewrite Z.min_id.
  all: change IntDef.Z.pos_sub with Z.pos_sub; rewrite Z.pos_sub_diag;
    cbn; auto.
Qed.

Lemma sub_eqb_falsy_raw (a b : float) :
  (a =? b) = true -> falsy (a - b) = true.
Proof.
  intros H. apply falsy_rank. unfold rank.
  rewrite sub_spec. apply SFsub_eqb_raw.
  now rewrite <- FloatAxioms.eqb_spec.
Qed.

(** ** Head turn: what is counted *)

Lemma headLogic_right_to_left_witness :
  (has_landmarks turnedBackPose = true
   /\ headSpan (first_landmarks turnedBackPose) = Normal (Math_abs (0.6 - 0.4))
   /\ falsy (Math_abs (0.6 - 0.4)) = false
   /\ headYaw RefRuntime.runtime (first_landmarks turnedBackPose)
        (Math_abs (0.6 - 0.4)) = Normal (-90)
   /\ (-90 <? -25) = true)
  /\ headLogic RefRuntime.runtime turnedBackPose (State.mk 3 "right")
     = Normal (Result.mk 4 "Yaw -90.0 deg" 100 (Some "left"%string)).
Proof.
  assert (H1 : has_landmarks turnedBackPose = true) by reflexivity.
  assert (H2 : headSpan (first_landmarks turnedBackPose)
               = Normal (Math_abs (0.6 - 0.4))) by reflexivity.
  assert (H3 : falsy (Math_abs (0.6 - 0.4)) = false)
    by (vm_compute; reflexivity).
  assert (H4 : headYaw RefRuntime.runtime (first_landmarks turnedBackPose)
                 (Math_abs (0.6 - 0.4)) = Normal (-90))
    by (vm_compute; reflexivity).
  assert (H5 : (-90 <? -25) = true) by reflexivity.
  split; [ repeat split; assumption | ].
  refine (eq_trans
            (headLogic_right_to_left RefRuntime.runtime turnedBackPose
               (State.mk 3 "right") _ _ H1 H2 H3 H4 H5 eq_refl) _).
  vm_compute. reflexivity.
Defined.

(** Between the two thresholds the head analyzer changes nothing: a yaw
    that is neither above 25 nor below -25 degrees (a [NaN] yaw included)
    returns the prior rep and the prior phase. *)
Theorem headLogic_dead_zone (rt : Runtime)
  (pose : option PoseLandmarkerResult) (state : State.t) (span yaw : float) :
  has_landmarks pose = true ->
  headSpan (first_landmarks pose) = Normal span ->
  falsy span = false ->
  headYaw rt (first_landmarks pose) span = Normal yaw ->
  gtb yaw 25 = false ->
  (yaw <? -25) = false ->
  headLogic rt pose state
  = Normal (Result.mk (State.rep state)
              ("Yaw " ++ toFixed rt yaw 1 ++ " deg")
              (Math_min 100 (Math_max 0 (Math_abs yaw / 25 * 70)))
              (Some (State.phase state))).
Proof.
  intros Hpose Hspan Htruthy Hyaw Hgt Hlt. unfold headLogic.
  rewrite Hpose, Hspan. cbn [negb bind].
  rewrite Htruthy, Hyaw. cbn [bind].
  change (- (25))%float with (-25)%float. rewrite Hgt, Hlt. reflexivity.
Qed.

Lemma headLogic_dead_zone_witness :
  (has_landmarks centredPose = true
   /\ headSpan (first_landmarks centredPose) = Normal (Math_abs (0.6 - 0.4))
   /\ falsy (Math_abs (0.6 - 0.4)) = false
   /\ headYaw RefRuntime.runtime (first_landmarks centredPose)
        (Math_abs (0.6 - 0.4)) = Normal 0
   /\ gtb 0 25 = false /\ (0 <? -25) = false)
  /\ headLogic RefRuntime.runtime centredPose (State.mk 3 "left")
     = Normal (Result.mk 3 "Yaw 0.0 deg" 0 (Some "left"%string)).
Proof.
  assert (H1 : has_landmarks centredPose = true) by reflexivity.
  assert (H2 : headSpan (first_landmarks centredPose)
               = Normal (Math_abs (0.6 - 0.4))) by reflexivity.
  assert (H3 : falsy (Math_abs (0.6 - 0.4)) = false)
    by (vm_compute; reflexivity).
  assert (H4 : headYaw RefRuntime.runtime (first_landmarks centredPose)
                 (Math_abs (0.6 - 0.4)) = Normal 0)
    by (vm_compute; reflexivity).
  assert (H5 : gtb 0 25 = false) by reflexivity.
  assert (H6 : (0 <? -25) = false) by reflexivity.
  split; [ repeat split; assumption | ].
  refine (eq_trans
            (headLogic_dead_zone RefRuntime.runtime centredPose
               (State.mk 3 "left") _ _ H1 H2 H3 H4 H5 H6) _).
  vm_compute. reflexivity.
Defined.

(** The head analyzer changes the rep only on a right-to-left sweep: a
    call that returns a rep other than the prior one was made with the
    prior phase "right", returns the phase "left" and adds exactly 1. *)
Theorem headLogic_counts_only_right_to_left (rt : Runtime)
  (pose : option PoseLandmarkerResult) (state : State.t) (r : Result.t) :
  headLogic rt pose state = Normal r ->
  Result.rep r <> State.rep state ->
  State.phase state = "right"%string
  /\ Result.phase r = Some "left"%string
  /\ Result.rep r = (State.rep state + 1)%Z.
Proof.
  unfold headLogic.
  destruct (negb (has_landmarks pose));
    [ intros [= <-] H; now destruct H | ].
  destruct (headSpan _) as [span | ]; cbn [bind]; [ | discriminate ].
  destruct (falsy span); [ intros [= <-] H; now destruct H | ].
  destruct (headYaw _ _ _) as [yaw | ]; cbn [bind]; [ | discriminate ].
  destruct (gtb yaw 25), (yaw <? - (25)),
    (String.eqb_spec (State.phase state) "right") as [Hr | Hr],
    (String.eqb_spec (State.phase state) "left") as [Hl | Hl];
    cbn; intros [= <-] H; cbn in *;
    try (now destruct H); try congruence; auto.
Qed.

Lemma headLogic_counts_only_right_to_left_witness :
  (headLogic RefRuntime.runtime turnedBackPose (State.mk 3 "right")
   = Normal (Result.mk 4 "Yaw -90.0 deg" 100 (Some "left"%string))
   /\ 4%Z <> 3%Z)
  /\ "right"%string = "right"%string
  /\ Some "left"%string = Some "left"%string
  /\ 4%Z = (3 + 1)%Z.
Proof.
  assert (H1 : headLogic RefRuntime.runtime turnedBackPose (State.mk 3 "right")
               = Normal (Result.mk 4 "Yaw -90.0 deg" 100
                           (Some "left"%string)))
    by (vm_compute; reflexivity).
  assert (H2 : 4%Z <> 3%Z) by discriminate.
  split; [ split; assumption | ].
  exact (headLogic_counts_only_right_to_left RefRuntime.runtime turnedBackPose
           (State.mk 3 "right") _ H1 H2).
Defined.

(** ** Finger pinch: what is counted *)

Lemma fingerLogic_pinch_then_release_witness :
  (has_landmarks pinchedHand = true
   /\ fingerNorm RefRuntime.runtime (first_landmarks pinchedHand) = Normal 0.1
   /\ (0.1 <? 0.25) = true
   /\ has_landmarks releasedHand = true
   /\ fingerNorm RefRuntime.runtime (first_landmarks releasedHand) = Normal 0.5
   /\ gtb 0.5 0.45 = true)
  /\ exists r1 r2 : Result.t,
       fingerLogic RefRuntime.runtime pinchedHand (State.mk 3 "idle")
       = Normal r1
       /\ fingerLogic RefRuntime.runtime releasedHand
            (nextState (State.mk 3 "idle") r1) = Normal r2
       /\ Result.rep r2 = (3 + 1)%Z
       /\ Result.phase r2 = Some "released"%string.
Proof.
  assert (H1 : has_landmarks pinchedHand = true) by reflexivity.
  assert (H2 : fingerNorm RefRuntime.runtime (first_landmarks pinchedHand)
               = Normal 0.1) by (vm_compute; reflexivity).
  assert (H3 : (0.1 <? 0.25) = true) by reflexivity.
  assert (H4 : has_landmarks releasedHand = true) by reflexivity.
  assert (H5 : fingerNorm RefRuntime.runtime (first_landmarks releasedHand)
               = Normal 0.5) by (vm_compute; reflexivity).
  assert (H6 : gtb 0.5 0.45 = true) by reflexivity.
  split; [ repeat split; assumption | ].
  exact (fingerLogic_pinch_then_release RefRuntime.runtime pinchedHand
           releasedHand (State.mk 3 "idle") 0.1 0.5 H1 H2 H3 H4 H5 H6).
Defined.

(** Between the two thresholds the finger analyzer changes nothing: a
    normalized gap that is neither below 0.25 nor above 0.45 returns the
    prior rep and the prior phase. *)
Theorem fingerLogic_dead_zone (rt : Runtime)
  (hand : option HandLandmarkerResult) (state : State.t) (norm : float) :
  has_landmarks hand = true ->
  fingerNorm rt (first_landmarks hand) = Normal norm ->
  (norm <? 0.25) = false ->
  gtb norm 0.45 = false ->
  fingerLogic rt hand state
  = Normal (Result.mk (State.rep state)
              ("Pinch gap " ++ toFixed rt (norm * 100) 0 ++ "%")
              (Math_max 0 (Math_min 100 ((0.45 - norm) * 200)))
              (Some (State.phase state))).
Proof.
  intros Hhand Hnorm Hlt Hgt. unfold fingerLogic.
  rewrite Hhand, Hnorm. cbn [negb bind]. rewrite Hlt, Hgt. reflexivity.
Qed.

Lemma fingerLogic_dead_zone_witness :
  (has_landmarks halfOpenHand = true
   /\ fingerNorm RefRuntime.runtime (first_landmarks halfOpenHand) = Normal 0.3
   /\ (0.3 <? 0.25) = false /\ gtb 0.3 0.45 = false)
  /\ fingerLogic RefRuntime.runtime halfOpenHand (State.mk 3 "pinched")
     = Normal (Result.mk 3 "Pinch gap 30%" 30.000000000000004
                 (Some "pinched"%string)).
Proof.
  assert (H1 : has_landmarks halfOpenHand = true) by reflexivity.
  assert (H2 : fingerNorm RefRuntime.runtime (first_landmarks halfOpenHand)
               = Normal 0.3) by (vm_compute; reflexivity).
  assert (H3 : (0.3 <? 0.25) = false) by reflexivity.
  assert (H4 : gtb 0.3 0.45 = false) by reflexivity.
  split; [ repeat split; assumption | ].
  refine (eq_trans
            (fingerLogic_dead_zone RefRuntime.runtime halfOpenHand
               (State.mk 3 "pinched") 0.3 H1 H2 H3 H4) _).
  vm_compute. reflexivity.
Defined.

(** The finger analyzer changes the rep only on a release: a call that
    returns a rep other than the prior one was made with the prior phase
    "pinched", returns the phase "released" and adds exactly 1.  A single
    frame cannot both set "pinched" and release. *)
Theorem fingerLogic_counts_only_release (rt : Runtime)
  (hand : option HandLandmarkerResult) (state : State.t) (r : Result.t) :
  fingerLogic rt hand state = Normal r ->
  Result.rep r <> State.rep state ->
  State.phase state = "pinched"%string
  /\ Result.phase r = Some "released"%string
  /\ Result.rep r = (State.rep state + 1)%Z.
Proof.
  unfold fingerLogic.
  destruct (negb (has_landmarks hand));
    [ intros [= <-] H; now destruct H | ].
  destruct (fingerNorm _ _) as [norm | ]; cbn [bind]; [ | discriminate ].
  destruct (norm <? 0.25) eqn:Hlt.
  - assert (Hgt : gtb norm 0.45 = false).
    { unfold gtb. apply (ltb_ltb_not_gtb norm 0.25 0.45 Hlt).
      vm_compute. reflexivity. }
    rewrite Hgt. cbn. intros [= <-] H. now destruct H.
  - destruct (gtb norm 0.45),
      (String.eqb_spec (State.phase state) "pinched") as [Hp | Hp];
      cbn; intros [= <-] H; cbn in *; try (now destruct H); auto.
Qed.

Lemma fingerLogic_counts_only_release_witness :
  (fingerLogic RefRuntime.runtime releasedHand (State.mk 3 "pinched")
   = Normal (Result.mk 4 "Pinch gap 50%" 0 (Some "released"%string))
   /\ 4%Z <> 3%Z)
  /\ "pinched"%string = "pinched"%string
  /\ Some "released"%string = Some "released"%string
  /\ 4%Z = (3 + 1)%Z.
Proof.
  assert (H1 : fingerLogic RefRuntime.runtime releasedHand
                 (State.mk 3 "pinched")
               = Normal (Result.mk 4 "Pinch gap 50%" 0
                           (Some "released"%string)))
    by (vm_compute; reflexivity).
  assert (H2 : 4%Z <> 3%Z) by discriminate.
  split; [ split; assumption | ].
  exact (fingerLogic_counts_only_release RefRuntime.runtime releasedHand
           (State.mk 3 "pinched") _ H1 H2).
Defined.

(** ** Open / fist *)

Lemma handLogic_result (hand : option HandLandmarkerResult)
  (state : State.t) (n : nat) :
  has_landmarks hand = true ->
  handExtended (first_landmarks hand) = Normal n ->
  exists r : Result.t,
    handLogic hand state = Normal r
    /\ Result.quality r = Math_min 100 (of_nat n * 25)
    /\ Result.status r = (if (3 <=? n)%nat then "Open" else "Fist")%string
    /\ ((3 <= n)%nat ->
        Result.rep r = State.rep state
        /\ Result.phase r = Some "open"%string)
    /\ ((n <= 1)%nat -> State.phase state = "open"%string ->
        Result.rep r = (State.rep state + 1)%Z
        /\ Result.phase r = Some "fist"%string)
    /\ (n = 2%nat ->
        Result.rep r = State.rep state
        /\ Result.phase r = Some (State.phase state)).
Proof.
  intros Hhand Hn. unfold handLogic. unfold handExtended in Hn.
  rewrite Hhand, Hn. cbn [negb bind].
  destruct (Nat.leb_spec 3 n) as [H3 | H3].
  - replace (n <=? 1)%nat with false
      by (symmetry; apply Nat.leb_gt; lia).
    cbn [andb]. eexists. split; [ reflexivity | ]. cbn.
    repeat split; intros; try lia; reflexivity.
  - destruct (Nat.leb_spec n 1) as [H1 | H1]; cbn [andb].
    + destruct (String.eqb_spec (State.phase state) "open") as [Hp | Hp];
        eexists; (split; [ reflexivity | ]); cbn;
        repeat split; intros; try lia; try reflexivity; tauto.
    + eexists. split; [ reflexivity | ]. cbn.
      repeat split; intros; try lia; reflexivity.
Qed.

(** An open hand followed by a fist, the caller carrying the counters
    from one frame to the next, counts one repetition: at least three
    extended fingers give the phase "open", and at most one extended
    finger after that gives rep = prior rep + 1 and the phase "fist". *)
Theorem handLogic_open_then_fist
  (hand1 hand2 : option HandLandmarkerResult) (state : State.t)
  (n1 n2 : nat) :
  has_landmarks hand1 = true ->
  handExtended (first_landmarks hand1) = Normal n1 ->
  (3 <= n1)%nat ->
  has_landmarks hand2 = true ->
  handExtended (first_landmarks hand2) = Normal n2 ->
  (n2 <= 1)%nat ->
  exists r1 r2 : Result.t,
    handLogic hand1 state = Normal r1
    /\ Result.rep r1 = State.rep state
    /\ handLogic hand2 (nextState state r1) = Normal r2
    /\ Result.rep r2 = (State.rep state + 1)%Z
    /\ Result.phase r2 = Some "fist"%string.
Proof.
  intros Hh1 Hn1 Hopen Hh2 Hn2 Hfist.
  destruct (handLogic_result hand1 state n1 Hh1 Hn1)
    as (r1 & Hr1 & _ & _ & Hup & _).
  destruct (Hup Hopen) as [Hrep1 Hphase1].
  assert (Hnext : nextState state r1 = State.mk (State.rep state) "open").
  { unfold nextState. rewrite Hrep1, Hphase1, Z.eqb_refl.
    destruct (String.eqb_spec "open" (State.phase state)) as [<- | _];
      reflexivity. }
  destruct (handLogic_result hand2 (nextState state r1) n2 Hh2 Hn2)
    as (r2 & Hr2 & _ & _ & _ & Hdown & _).
  rewrite Hnext in Hdown. destruct (Hdown Hfist eq_refl) as [Hrep2 Hphase2].
  exists r1, r2. repeat split; assumption.
Qed.

Lemma handLogic_open_then_fist_witness :
  (has_landmarks openHand = true
   /\ handExtended (first_landmarks openHand) = Normal 4%nat
   /\ (3 <= 4)%nat
   /\ has_landmarks fistHand = true
   /\ handExtended (first_landmarks fistHand) = Normal 0%nat
   /\ (0 <= 1)%nat)
  /\ exists r1 r2 : Result.t,
       handLogic openHand (State.mk 3 "idle") = Normal r1
       /\ Result.rep r1 = 3%Z
       /\ handLogic fistHand (nextState (State.mk 3 "idle") r1) = Normal r2
       /\ Result.rep r2 = (3 + 1)%Z
       /\ Result.phase r2 = Some "fist"%string.
Proof.
  assert (H1 : has_landmarks openHand = true) by reflexivity.
  assert (H2 : handExtended (first_landmarks openHand) = Normal 4%nat)
    by (vm_compute; reflexivity).
  assert (H3 : (3 <= 4)%nat) by lia.
  assert (H4 : has_landmarks fistHand = true) by reflexivity.
  assert (H5 : handExtended (first_landmarks fistHand) = Normal 0%nat)
    by (vm_compute; reflexivity).
  assert (H6 : (0 <= 1)%nat) by lia.
  split; [ repeat split; assumption | ].
  exact (handLogic_open_then_fist openHand fistHand (State.mk 3 "idle")
           4 0 H1 H2 H3 H4 H5 H6).
Defined.

(** The hand analyzer reports one of five qualities, 25 per extended
    finger: a returned quality is 0, 25, 50, 75 or 100, never [NaN]. *)
Theorem handLogic_quality_values (hand : option HandLandmarkerResult)
  (state : State.t) (r : Result.t) :
  handLogic hand state = Normal r ->
  In (Result.quality r) handQualities.
Proof.
  unfold handLogic.
  destruct (negb (has_landmarks hand));
    [ intros [= <-]; left; reflexivity | ].
  destruct (count_extended _ _) as [n | ] eqn:Hn; cbn [bind];
    [ | discriminate ].
  apply count_extended_le in Hn. cbn [length map] in Hn.
  assert (Hq : In (Math_min 100 (of_nat n * 25)) handQualities).
  { unfold handQualities.
    destruct n as [ | [ | [ | [ | [ | n]]]]]; [ | | | | | lia ].
    - left. vm_compute. reflexivity.
    - right. left. vm_compute. reflexivity.
    - do 2 right. left. vm_compute. reflexivity.
    - do 3 right. left. vm_compute. reflexivity.
    - do 4 right. left. vm_compute. reflexivity. }
  analyzer_cases; intros [= <-]; exact Hq.
Qed.

Lemma handLogic_quality_values_witness :
  handLogic twoFingerHand (State.mk 3 "open")
  = Normal (Result.mk 3 "Fist" 50 (Some "open"%string))
  /\ In 50 handQualities.
Proof.
  assert (H : handLogic twoFingerHand (State.mk 3 "open")
              = Normal (Result.mk 3 "Fist" 50 (Some "open"%string)))
    by (vm_compute; reflexivity).
  split; [ exact H | ].
  exact (handLogic_quality_values twoFingerHand (State.mk 3 "open") _ H).
Defined.

(** ** Knee raise *)

Lemma legLogic_result (rt : Runtime) (pose : option PoseLandmarkerResult)
  (state : State.t) (raised : bool) (ang : float) :
  has_landmarks pose = true ->
  legRaised (first_landmarks pose) = Normal raised ->
  angleDeg rt (item (first_landmarks pose) 23) (item (first_landmarks pose) 25)
    (item (first_landmarks pose) 27) = Normal ang ->
  exists r : Result.t,
    legLogic rt pose state = Normal r
    /\ Result.quality r = Math_min 100 (Math_max 0 ((180 - ang) * 1.2))
    /\ Result.status r = (if raised then "Knee up" else "Neutral")%string
    /\ (raised = true ->
        Result.rep r = State.rep state /\ Result.phase r = Some "up"%string)
    /\ (raised = false -> State.phase state = "up"%string ->
        Result.rep r = (State.rep state + 1)%Z
        /\ Result.phase r = Some "down"%string)
    /\ (raised = false -> State.phase state <> "up"%string ->
        Result.rep r = State.rep state
        /\ Result.phase r = Some (State.phase state)).
Proof.
  intros Hpose Hraised Hang. unfold legLogic. unfold legRaised in Hraised.
  rewrite Hpose. cbn [negb].
  destruct (get_y (item (first_landmarks pose) 25)) as [ky | ];
    cbn [bind] in *; [ | discriminate ].
  destruct (get_y (item (first_landmarks pose) 23)) as [hy | ];
    cbn [bind] in *; [ | discriminate ].
  injection Hraised as Hraised. rewrite Hraised, Hang.
  destruct raised; cbn [negb andb bind].
  - eexists. split; [ reflexivity | ]. cbn.
    repeat split; intros; try discriminate; reflexivity.
  - destruct (String.eqb_spec (State.phase state) "up") as [Hp | Hp];
      eexists; (split; [ reflexivity | ]); cbn;
      repeat split; intros; try discriminate; try reflexivity; tauto.
Qed.

(** A raised knee followed by a lowered one, the caller carrying the
    counters from one frame to the next, counts one repetition: the
    raised frame gives the phase "up" and the frame after it gives
    rep = prior rep + 1 and the phase "down". *)
Theorem legLogic_up_then_down (rt : Runtime)
  (pose1 pose2 : option PoseLandmarkerResult) (state : State.t)
  (ang1 ang2 : float) :
  has_landmarks pose1 = true ->
  legRaised (first_landmarks pose1) = Normal true ->
  angleDeg rt (item (first_landmarks pose1) 23)
    (item (first_landmarks pose1) 25) (item (first_landmarks pose1) 27)
  = Normal ang1 ->
  has_landmarks pose2 = true ->
  legRaised (first_landmarks pose2) = Normal false ->
  angleDeg rt (item (first_landmarks pose2) 23)
    (item (first_landmarks pose2) 25) (item (first_landmarks pose2) 27)
  = Normal ang2 ->
  exists r1 r2 : Result.t,
    legLogic rt pose1 state = Normal r1
    /\ Result.rep r1 = State.rep state
    /\ legLogic rt pose2 (nextState state r1) = Normal r2
    /\ Result.rep r2 = (State.rep state + 1)%Z
    /\ Result.phase r2 = Some "down"%string.
Proof.
  intros Hp1 Hr1 Ha1 Hp2 Hr2 Ha2.
  destruct (legLogic_result rt pose1 state true ang1 Hp1 Hr1 Ha1)
    as (r1 & Hres1 & _ & _ & Hup & _).
  destruct (Hup eq_refl) as [Hrep1 Hphase1].
  assert (Hnext : nextState state r1 = State.mk (State.rep state) "up").
  { unfold nextState. rewrite Hrep1, Hphase1, Z.eqb_refl.
    destruct (String.eqb_spec "up" (State.phase state)) as [<- | _];
      reflexivity. }
  destruct (legLogic_result rt pose2 (nextState state r1) false ang2
              Hp2 Hr2 Ha2)
    as (r2 & Hres2 & _ & _ & _ & Hdown & _).
  rewrite Hnext in Hdown. destruct (Hdown eq_refl eq_refl) as [Hrep2 Hphase2].
  exists r1, r2. repeat split; assumption.
Qed.

Lemma legLogic_up_then_down_witness :
  (has_landmarks kneeUpPose = true
   /\ legRaised (first_landmarks kneeUpPose) = Normal true
   /\ angleDeg RefRuntime.runtime (item (first_landmarks kneeUpPose) 23)
        (item (first_landmarks kneeUpPose) 25)
        (item (first_landmarks kneeUpPose) 27) = Normal 90
   /\ has_landmarks kneeDownPose = true
   /\ legRaised (first_landmarks kneeDownPose) = Normal false
   /\ angleDeg RefRuntime.runtime (item (first_landmarks kneeDownPose) 23)
        (item (first_landmarks kneeDownPose) 25)
        (item (first_landmarks kneeDownPose) 27) = Normal 180)
  /\ exists r1 r2 : Result.t,
       legLogic RefRuntime.runtime kneeUpPose (State.mk 3 "idle") = Normal r1
       /\ Result.rep r1 = 3%Z
       /\ legLogic RefRuntime.runtime kneeDownPose
            (nextState (State.mk 3 "idle") r1) = Normal r2
       /\ Result.rep r2 = (3 + 1)%Z
       /\ Result.phase r2 = Some "down"%string.
Proof.
  assert (H1 : has_landmarks kneeUpPose = true) by reflexivity.
  assert (H2 : legRaised (first_landmarks kneeUpPose) = Normal true)
    by (vm_compute; reflexivity).
  assert (H3 : angleDeg RefRuntime.runtime
                 (item (first_landmarks kneeUpPose) 23)
                 (item (first_landmarks kneeUpPose) 25)
                 (item (first_landmarks kneeUpPose) 27) = Normal 90)
    by (vm_compute; reflexivity).
  assert (H4 : has_landmarks kneeDownPose = true) by reflexivity.
  assert (H5 : legRaised (first_landmarks kneeDownPose) = Normal false)
    by (vm_compute; reflexivity).
  assert (H6 : angleDeg RefRuntime.runtime
                 (item (first_landmarks kneeDownPose) 23)
                 (item (first_landmarks kneeDownPose) 25)
                 (item (first_landmarks kneeDownPose) 27) = Normal 180)
    by (vm_compute; reflexivity).
  split; [ repeat split; assumption | ].
  exact (legLogic_up_then_down RefRuntime.runtime kneeUpPose kneeDownPose
           (State.mk 3 "idle") 90 180 H1 H2 H3 H4 H5 H6).
Defined.

(** The leg analyzer changes the rep only when a raised knee comes down:
    a call that returns a rep other than the prior one was made with the
    prior phase "up", returns the phase "down" and adds exactly 1. *)
Theorem legLogic_counts_only_lowering (rt : Runtime)
  (pose : option PoseLandmarkerResult) (state : State.t) (r : Result.t) :
  legLogic rt pose state = Normal r ->
  Result.rep r <> State.rep state ->
  State.phase state = "up"%string
  /\ Result.phase r = Some "down"%string
  /\ Result.rep r = (State.rep state + 1)%Z.
Proof.
  unfold legLogic.
  destruct (negb (has_landmarks pose));
    [ intros [= <-] H; now destruct H | ].
  destruct (get_y _) as [ky | ]; cbn [bind]; [ | discriminate ].
  destruct (get_y _) as [hy | ]; cbn [bind]; [ | discriminate ].
  destruct (angleDeg _ _ _ _) as [ang | ]; cbn [bind];
    [ | analyzer_cases; discriminate ].
  destruct (ky <? hy - 0.05),
    (String.eqb_spec (State.phase state) "up") as [Hp | Hp];
    cbn; intros [= <-] H; cbn in *; try (now destruct H); auto.
Qed.

Lemma legLogic_counts_only_lowering_witness :
  (legLogic RefRuntime.runtime kneeDownPose (State.mk 3 "up")
   = Normal (Result.mk 4 "Neutral" 0 (Some "down"%string))
   /\ 4%Z <> 3%Z)
  /\ "up"%string = "up"%string
  /\ Some "down"%string = Some "down"%string
  /\ 4%Z = (3 + 1)%Z.
Proof.
  assert (H1 : legLogic RefRuntime.runtime kneeDownPose (State.mk 3 "up")
               = Normal (Result.mk 4 "Neutral" 0 (Some "down"%string)))
    by (vm_compute; reflexivity).
  assert (H2 : 4%Z <> 3%Z) by discriminate.
  split; [ split; assumption | ].
  exact (legLogic_counts_only_lowering RefRuntime.runtime kneeDownPose
           (State.mk 3 "up") _ H1 H2).
Defined.

(** The hand analyzer changes the rep only when an open hand closes: a
    call that returns a rep other than the prior one was made with the
    prior phase "open", returns the phase "fist" and adds exactly 1. *)
Theorem handLogic_counts_only_closing (hand : option HandLandmarkerResult)
  (state : State.t) (r : Result.t) :
  handLogic hand state = Normal r ->
  Result.rep r <> State.rep state ->
  State.phase state = "open"%string
  /\ Result.phase r = Some "fist"%string
  /\ Result.rep r = (State.rep state + 1)%Z.
Proof.
  unfold handLogic.
  destruct (negb (has_landmarks hand));
    [ intros [= <-] H; now destruct H | ].
  destruct (count_extended _ _) as [n | ]; cbn [bind]; [ | discriminate ].
  destruct (Nat.leb_spec 3 n) as [H3 | H3].
  - replace (n <=? 1)%nat with false
      by (symmetry; apply Nat.leb_gt; lia).
    cbn. intros [= <-] H. now destruct H.
  - destruct (n <=? 1)%nat,
      (String.eqb_spec (State.phase state) "open") as [Hp | Hp];
      cbn; intros [= <-] H; cbn in *; try (now destruct H); auto.
Qed.

Lemma handLogic_counts_only_closing_witness :
  (handLogic fistHand (State.mk 3 "open")
   = Normal (Result.mk 4 "Fist" 0 (Some "fist"%string))
   /\ 4%Z <> 3%Z)
  /\ "open"%string = "open"%string
  /\ Some "fist"%string = Some "fist"%string
  /\ 4%Z = (3 + 1)%Z.
Proof.
  assert (H1 : handLogic fistHand (State.mk 3 "open")
               = Normal (Result.mk 4 "Fist" 0 (Some "fist"%string)))
    by (vm_compute; reflexivity).
  assert (H2 : 4%Z <> 3%Z) by discriminate.
  split; [ split; assumption | ].
  exact (handLogic_counts_only_closing fistHand (State.mk 3 "open") _ H1 H2).
Defined.

(** ** The angle at a vertex *)

Lemma falsy_Prim2SF (u : float) :
  falsy u = true ->
  (exists s : bool, Prim2SF u = S754_zero s) \/ Prim2SF u = S754_nan.
Proof.
  intros H. apply falsy_rank in H. unfold rank in H.
  destruct (Prim2SF u) as [s | s | | s m e]; try destruct s; cbn in H;
    destruct H as [H | H]; try discriminate; eauto.
Qed.

(** The reference [hypot] has the required special cases. *)
Lemma RefRuntime_hypotOfFalsy : hypotOfFalsy RefRuntime.runtime.
Proof.
  intros u v Hu Hv. cbn [Math_hypot RefRuntime.runtime]. unfold RefRuntime.hypot.
  apply falsy_Prim2SF in Hu, Hv.
  assert (Hiu : is_infinity u = false).
  { unfold is_infinity. rewrite FloatAxioms.eqb_spec, abs_spec.
    destruct Hu as [[s ->] | ->]; reflexivity. }
  assert (Hiv : is_infinity v = false).
  { unfold is_infinity. rewrite FloatAxioms.eqb_spec, abs_spec.
    destruct Hv as [[s ->] | ->]; reflexivity. }
  rewrite Hiu, Hiv. cbn [orb].
  apply falsy_rank. unfold rank.
  rewrite sqrt_spec, add_spec, !mul_spec.
  destruct Hu as [[su ->] | ->], Hv as [[sv ->] | ->];
    try destruct su; try destruct sv; cbn; auto.
Qed.

Lemma angleDeg_zero_first_ray (rt : Runtime) (a b : NormalizedLandmark)
  (c : option NormalizedLandmark) (cx cy : float) :
  hypotOfFalsy rt ->
  (x a =? x b) = true -> (y a =? y b) = true ->
  get_x c = Normal cx -> get_y c = Normal cy ->
  angleDeg rt (Some a) (Some b) c = Normal 180.
Proof.
  intros Hrt Hx Hy Hcx Hcy. unfold angleDeg.
  cbn [get_x get_y bind]. rewrite Hcx, Hcy. cbn [bind x y].
  rewrite (Hrt _ _ (sub_eqb_falsy_raw _ _ Hx) (sub_eqb_falsy_raw _ _ Hy)).
  reflexivity.
Qed.

Lemma angleDeg_zero_second_ray (rt : Runtime) (a b c : NormalizedLandmark) :
  hypotOfFalsy rt ->
  (x c =? x b) = true -> (y c =? y b) = true ->
  angleDeg rt (Some a) (Some b) (Some c) = Normal 180.
Proof.
  intros Hrt Hx Hy. unfold angleDeg.
  cbn [get_x get_y bind x y].
  rewrite (Hrt _ _ (sub_eqb_falsy_raw _ _ Hx) (sub_eqb_falsy_raw _ _ Hy)).
  rewrite orb_true_r. reflexivity.
Qed.

(** When the vertex coincides with either end point, [angleDeg] returns
    180 degrees, whatever the third point is: with a [Math.hypot] that
    gives zero or [NaN] on arguments that are zero or [NaN], the zero
    length ray is caught before the division by the two lengths. *)
Theorem angleDeg_zero_ray (rt : Runtime) (a b c : NormalizedLandmark) :
  hypotOfFalsy rt ->
  ((x a =? x b) = true /\ (y a =? y b) = true)
  \/ ((x c =? x b) = true /\ (y c =? y b) = true) ->
  angleDeg rt (Some a) (Some b) (Some c) = Normal 180.
Proof.
  intros Hrt [[Hx Hy] | [Hx Hy]].
  - now apply (angleDeg_zero_first_ray rt a b (Some c) (x c) (y c)).
  - now apply angleDeg_zero_second_ray.
Qed.

Lemma angleDeg_zero_ray_witness :
  (hypotOfFalsy RefRuntime.runtime
   /\ (((0.5 =? 0.5) = true /\ (0.5 =? 0.5) = true)
       \/ ((0.5 =? 0.5) = true /\ (0.9 =? 0.5) = true)))
  /\ angleDeg RefRuntime.runtime (Some (mkLandmark 0.5 0.5))
       (Some (mkLandmark 0.5 0.5)) (Some (mkLandmark 0.5 0.9))
     = Normal 180.
Proof.
  assert (H1 : hypotOfFalsy RefRuntime.runtime)
    by exact RefRuntime_hypotOfFalsy.
  assert (H2 : ((x (mkLandmark 0.5 0.5) =? x (mkLandmark 0.5 0.5)) = true
                /\ (y (mkLandmark 0.5 0.5) =? y (mkLandmark 0.5 0.5)) = true)
               \/ ((x (mkLandmark 0.5 0.9) =? x (mkLandmark 0.5 0.5)) = true
                   /\ (y (mkLandmark 0.5 0.9) =? y (mkLandmark 0.5 0.5))
                      = true))
    by (left; split; reflexivity).
  split; [ split; assumption | ].
  exact (angleDeg_zero_ray RefRuntime.runtime (mkLandmark 0.5 0.5)
           (mkLandmark 0.5 0.5) (mkLandmark 0.5 0.9) H1 H2).
Defined.

(** A knee detected on the hip gives the leg analyzer a quality of 0: the
    knee angle degenerates to 180 degrees instead of dividing by a zero
    length. *)
Theorem legLogic_knee_on_hip (rt : Runtime)
  (pose : option PoseLandmarkerResult) (state : State.t)
  (hip knee ankle : NormalizedLandmark) :
  hypotOfFalsy rt ->
  has_landmarks pose = true ->
  item (first_landmarks pose) 23 = Some hip ->
  item (first_landmarks pose) 25 = Some knee ->
  item (first_landmarks pose) 27 = Some ankle ->
  (x hip =? x knee) = true -> (y hip =? y knee) = true ->
  exists r : Result.t,
    legLogic rt pose state = Normal r /\ Result.quality r = 0.
Proof.
  intros Hrt Hpose Hhip Hknee Hankle Hx Hy.
  assert (Hraised : legRaised (first_landmarks pose)
                    = Normal (y knee <? y hip - 0.05)).
  { unfold legRaised. now rewrite Hknee, Hhip. }
  assert (Hang : angleDeg rt (item (first_landmarks pose) 23)
                   (item (first_landmarks pose) 25)
                   (item (first_landmarks pose) 27) = Normal 180).
  { rewrite Hhip, Hknee, Hankle.
    now apply (angleDeg_zero_first_ray rt hip knee (Some ankle)
                 (x ankle) (y ankle)). }
  destruct (legLogic_result rt pose state _ 180 Hpose Hraised Hang)
    as (r & Hr & Hq & _).
  exists r. split; [ exact Hr | ]. rewrite Hq. vm_compute. reflexivity.
Qed.

Lemma legLogic_knee_on_hip_witness :
  (hypotOfFalsy RefRuntime.runtime
   /\ has_landmarks kneeOnHipPose = true
   /\ item (first_landmarks kneeOnHipPose) 23 = Some (mkLandmark 0.5 0.5)
   /\ item (first_landmarks kneeOnHipPose) 25 = Some (mkLandmark 0.5 0.5)
   /\ item (first_landmarks kneeOnHipPose) 27 = Some (mkLandmark 0.5 0.9)
   /\ (0.5 =? 0.5) = true)
  /\ exists r : Result.t,
       legLogic RefRuntime.runtime kneeOnHipPose (State.mk 3 "up") = Normal r
       /\ Result.quality r = 0.
Proof.
  assert (H1 : hypotOfFalsy RefRuntime.runtime)
    by exact RefRuntime_hypotOfFalsy.
  assert (H2 : has_landmarks kneeOnHipPose = true) by reflexivity.
  assert (H3 : item (first_landmarks kneeOnHipPose) 23
               = Some (mkLandmark 0.5 0.5)) by reflexivity.
  assert (H4 : item (first_landmarks kneeOnHipPose) 25
               = Some (mkLandmark 0.5 0.5)) by reflexivity.
  assert (H5 : item (first_landmarks kneeOnHipPose) 27
               = Some (mkLandmark 0.5 0.9)) by reflexivity.
  assert (H6 : (0.5 =? 0.5) = true) by reflexivity.
  split; [ repeat split; assumption | ].
  exact (legLogic_knee_on_hip RefRuntime.runtime kneeOnHipPose
           (State.mk 3 "up") _ _ _ H1 H2 H3 H4 H5 H6 H6).
Defined.

(** ** Shoulder raise: hold, band and release *)

(** A shrug held for a second frame is not counted again: from a phase
    with neither flag set, a frame with both angles at or above 60
    degrees adds 2, and the same frame evaluated again on the carried
    state adds nothing and keeps the phase "L1R1". *)
Theorem shoulderLogic_shrug_counted_once (rt : Runtime)
  (pose : option PoseLandmarkerResult) (state : State.t)
  (lAngle rAngle : float) :
  has_landmarks pose = true ->
  shoulderAngles (first_landmarks pose) = Normal (lAngle, rAngle) ->
  geb lAngle 60 = true ->
  geb rAngle 60 = true ->
  includes (State.phase state) "L1" = false ->
  includes (State.phase state) "R1" = false ->
  exists r1 r2 : Result.t,
    shoulderLogic rt pose state = Normal r1
    /\ Result.rep r1 = (State.rep state + 2)%Z
    /\ shoulderLogic rt pose (nextState state r1) = Normal r2
    /\ Result.rep r2 = (State.rep state + 2)%Z
    /\ Result.phase r2 = Some "L1R1"%string.
Proof.
  intros Hpose Hangles Hl Hr HL HR.
  assert (Hl40 : (lAngle <? 40) = false)
    by (apply (leb_ltb_not_ltb 40 60 lAngle Hl); reflexivity).
  assert (Hr40 : (rAngle <? 40) = false)
    by (apply (leb_ltb_not_ltb 40 60 rAngle Hr); reflexivity).
  assert (Hnext : forall q s,
             nextState state
               (Result.mk (State.rep state + 1 + 1) s q (Some "L1R1"%string))
             = State.mk (State.rep state + 1 + 1) "L1R1").
  { intros q s. unfold nextState. cbn [Result.rep Result.phase].
    replace (State.rep state + 1 + 1 =? State.rep state)%Z with false
      by (symmetry; apply Z.eqb_neq; lia).
    destruct (String.eqb_spec "L1R1" (State.phase state)) as [<- | _];
      reflexivity. }
  unfold shoulderLogic. rewrite Hpose, Hangles. cbn [negb bind].
  rewrite HL, HR. cbn [negb andb]. rewrite Hl, Hr.
  eexists. eexists. split; [ reflexivity | ].
  split; [ cbn; lia | ].
  rewrite Hnext. cbn [State.rep State.phase].
  replace (includes "L1R1" "L1") with true by reflexivity.
  replace (includes "L1R1" "R1") with true by reflexivity.
  cbn [negb andb]. rewrite Hl40, Hr40.
  split; [ reflexivity | ]. cbn. split; [ lia | reflexivity ].
Qed.

Lemma shoulderLogic_shrug_counted_once_witness :
  (has_landmarks shruggedPose = true
   /\ shoulderAngles (first_landmarks shruggedPose)
      = Normal (135.02248875562219, 135.02248875562219)
   /\ geb 135.02248875562219 60 = true
   /\ includes "idle" "L1" = false /\ includes "idle" "R1" = false)
  /\ exists r1 r2 : Result.t,
       shoulderLogic RefRuntime.runtime shruggedPose (State.mk 3 "idle")
       = Normal r1
       /\ Result.rep r1 = (3 + 2)%Z
       /\ shoulderLogic RefRuntime.runtime shruggedPose
            (nextState (State.mk 3 "idle") r1) = Normal r2
       /\ Result.rep r2 = (3 + 2)%Z
       /\ Result.phase r2 = Some "L1R1"%string.
Proof.
  assert (H1 : has_landmarks shruggedPose = true) by reflexivity.
  assert (H2 : shoulderAngles (first_landmarks shruggedPose)
               = Normal (135.02248875562219, 135.02248875562219))
    by (vm_compute; reflexivity).
  assert (H3 : geb 135.02248875562219 60 = true) by reflexivity.
  assert (H4 : includes "idle" "L1" = false) by reflexivity.
  assert (H5 : includes "idle" "R1" = false) by reflexivity.
  split; [ repeat split; assumption | ].
  exact (shoulderLogic_shrug_counted_once RefRuntime.runtime shruggedPose
           (State.mk 3 "idle") _ _ H1 H2 H3 H3 H4 H5).
Defined.

(** Between the relax and the lift threshold the shoulder analyzer
    changes nothing: with both angles neither below 40 nor at or above 60
    degrees and a prior phase in the two-flag encoding, it returns the
    prior rep and the prior phase. *)
Theorem shoulderLogic_band_keeps_state (rt : Runtime)
  (pose : option PoseLandmarkerResult) (state : State.t)
  (lAngle rAngle : float) :
  has_landmarks pose = true ->
  shoulderAngles (first_landmarks pose) = Normal (lAngle, rAngle) ->
  (lAngle <? 40) = false -> geb lAngle 60 = false ->
  (rAngle <? 40) = false -> geb rAngle 60 = false ->
  In (State.phase state) shoulderPhases ->
  exists r : Result.t,
    shoulderLogic rt pose state = Normal r
    /\ Result.rep r = State.rep state
    /\ Result.phase r = Some (State.phase state).
Proof.
  intros Hpose Hangles Hl40 Hl60 Hr40 Hr60 Hphase.
  unfold shoulderLogic. rewrite Hpose, Hangles. cbn [negb bind].
  rewrite Hl40, Hl60, Hr40, Hr60.
  destruct Hphase as [<- | [<- | [<- | [<- | []]]]];
    eexists; (split; [ reflexivity | ]); cbn; split; reflexivity.
Qed.

Lemma shoulderLogic_band_keeps_state_witness :
  (has_landmarks halfShrugPose = true
   /\ shoulderAngles (first_landmarks halfShrugPose)
      = Normal (45.067466266866518, 45.067466266866518)
   /\ (45.067466266866518 <? 40) = false
   /\ geb 45.067466266866518 60 = false
   /\ In "L1R0"%string shoulderPhases)
  /\ exists r : Result.t,
       shoulderLogic RefRuntime.runtime halfShrugPose (State.mk 3 "L1R0")
       = Normal r
       /\ Result.rep r = 3%Z
       /\ Result.phase r = Some "L1R0"%string.
Proof.
  assert (H1 : has_landmarks halfShrugPose = true) by reflexivity.
  assert (H2 : shoulderAngles (first_landmarks halfShrugPose)
               = Normal (45.067466266866518, 45.067466266866518))
    by (vm_compute; reflexivity).
  assert (H3 : (45.067466266866518 <? 40) = false) by reflexivity.
  assert (H4 : geb 45.067466266866518 60 = false) by reflexivity.
  assert (H5 : In "L1R0"%string shoulderPhases) by (cbn; tauto).
  split; [ repeat split; assumption | ].
  exact (shoulderLogic_band_keeps_state RefRuntime.runtime halfShrugPose
           (State.mk 3 "L1R0") _ _ H1 H2 H3 H4 H3 H4 H5).
Defined.

(** Relaxing both shoulders clears both flags without counting: with
    both angles below 40 degrees the shoulder analyzer returns the prior
    rep and the phase "L0R0", whatever the prior phase. *)
Theorem shoulderLogic_relax_clears (rt : Runtime)
  (pose : option PoseLandmarkerResult) (state : State.t)
  (lAngle rAngle : float) :
  has_landmarks pose = true ->
  shoulderAngles (first_landmarks pose) = Normal (lAngle, rAngle) ->
  (lAngle <? 40) = true ->
  (rAngle <? 40) = true ->
  exists r : Result.t,
    shoulderLogic rt pose state = Normal r
    /\ Result.rep r = State.rep state
    /\ Result.phase r = Some "L0R0"%string.
Proof.
  intros Hpose Hangles Hl Hr.
  assert (Hl60 : geb lAngle 60 = false)
    by (apply (ltb_ltb_not_leb lAngle 40 60 Hl); reflexivity).
  assert (Hr60 : geb rAngle 60 = false)
    by (apply (ltb_ltb_not_leb rAngle 40 60 Hr); reflexivity).
  unfold shoulderLogic. rewrite Hpose, Hangles. cbn [negb bind].
  rewrite Hl, Hr, Hl60, Hr60.
  destruct (includes (State.phase state) "L1"),
    (includes (State.phase state) "R1");
    eexists; (split; [ reflexivity | ]); cbn; split; reflexivity.
Qed.

Lemma shoulderLogic_relax_clears_witness :
  (has_landmarks relaxedPose = true
   /\ shoulderAngles (first_landmarks relaxedPose)
      = Normal (-44.887556221889128, -44.887556221889128)
   /\ (-44.887556221889128 <? 40) = true)
  /\ exists r : Result.t,
       shoulderLogic RefRuntime.runtime relaxedPose (State.mk 5 "L1R1")
       = Normal r
       /\ Result.rep r = 5%Z
       /\ Result.phase r = Some "L0R0"%string.
Proof.
  assert (H1 : has_landmarks relaxedPose = true) by reflexivity.
  assert (H2 : shoulderAngles (first_landmarks relaxedPose)
               = Normal (-44.887556221889128, -44.887556221889128))
    by (vm_compute; reflexivity).
  assert (H3 : (-44.887556221889128 <? 40) = true) by reflexivity.
  split; [ repeat split; assumption | ].
  exact (shoulderLogic_relax_clears RefRuntime.runtime relaxedPose
           (State.mk 5 "L1R1") _ _ H1 H2 H3 H3).
Defined.

(** ** Dispatch: throwing and quality *)

Lemma evaluateFrame_returns_witness :
  (listsAtLeast 33 turnedPose /\ listsAtLeast 21 None)
  /\ exists r : Result.t,
       evaluateFrame RefRuntime.runtime "head" turnedPose None
         (State.mk 3 "idle") = Normal r.
Proof.
  assert (H1 : listsAtLeast 33 turnedPose)
    by (intros _; vm_compute; lia).
  assert (H2 : listsAtLeast 21 None) by (intros H; discriminate H).
  split; [ split; assumption | ].
  exact (evaluateFrame_returns RefRuntime.runtime "head" turnedPose None
           (State.mk 3 "idle") H1 H2).
Defined.

Lemma item_out_of_range (lm : list NormalizedLandmark) (i : nat) :
  (length lm <= i)%nat -> item lm i = None.
Proof. intros H. unfold item. now apply nth_error_None. Qed.

Ltac throws_at lm k :=
  let H := fresh "H" in
  assert (H : item lm k = None) by (apply item_out_of_range; lia);
  rewrite !H;
  repeat first
    [ progress cbn [bind get_x get_y count_extended map]
    | match goal with
      | |- context [item lm ?i] => destruct (item lm i)
      | |- context [if ?c then _ else _] => destruct c
      end ];
  reflexivity.

(** A landmark list that stops short of an index the analyzer reads makes
    the call throw a [TypeError]: with a subject detected and fewer
    landmarks than the exercise reads (13 for head and shoulder, 9 for
    finger, 21 for hand, 28 for leg), [evaluateFrame] returns no result. *)
Theorem evaluateFrame_short_list_throws (rt : Runtime) (exercise : string)
  (pose : option PoseLandmarkerResult) (hand : option HandLandmarkerResult)
  (state : State.t) :
  In exercise ExerciseIds ->
  has_landmarks (modality exercise pose hand) = true ->
  (length (first_landmarks (modality exercise pose hand))
   < requiredLandmarks exercise)%nat ->
  evaluateFrame rt exercise pose hand state = Throw TypeError.
Proof.
  intros Hid Hhas Hlen. apply In_ExerciseIds in Hid.
  destruct Hid as [-> | [-> | [-> | [-> | ->]]]];
    cbn in Hhas, Hlen;
    unfold evaluateFrame, headLogic, fingerLogic, handLogic, legLogic,
      shoulderLogic, headSpan, fingerNorm, shoulderAngles, distance, angleDeg;
    cbn [String.eqb Ascii.eqb Bool.eqb]; rewrite Hhas; cbn [negb map].
  - throws_at (first_landmarks pose) 12%nat.
  - throws_at (first_landmarks hand) 8%nat.
  - throws_at (first_landmarks hand) 20%nat.
  - throws_at (first_landmarks pose) 27%nat.
  - throws_at (first_landmarks pose) 12%nat.
Qed.

Lemma evaluateFrame_short_list_throws_witness :
  (In "head"%string ExerciseIds
   /\ has_landmarks (modality "head" shortPose None) = true
   /\ (length (first_landmarks (modality "head" shortPose None))
       < requiredLandmarks "head")%nat)
  /\ evaluateFrame RefRuntime.runtime "head" shortPose None
       (State.mk 3 "idle") = Throw TypeError.
Proof.
  assert (H1 : In "head"%string ExerciseIds) by (cbn; tauto).
  assert (H2 : has_landmarks (modality "head" shortPose None) = true)
    by reflexivity.
  assert (H3 : (length (first_landmarks (modality "head" shortPose None))
                < requiredLandmarks "head")%nat)
    by (vm_compute; lia).
  split; [ repeat split; assumption | ].
  exact (evaluateFrame_short_list_throws RefRuntime.runtime "head" shortPose
           None (State.mk 3 "idle") H1 H2 H3).
Defined.

(** Every exercise but the shoulder raise returns a quality within the
    range from 0 to 100, or [NaN] when the reading it is computed from is
    [NaN]; an unknown identifier returns 0. *)
Theorem evaluateFrame_quality_clamped (rt : Runtime) (exercise : string)
  (pose : option PoseLandmarkerResult) (hand : option HandLandmarkerResult)
  (state : State.t) (r : Result.t) :
  exercise <> "shoulder"%string ->
  evaluateFrame rt exercise pose hand state = Normal r ->
  in_range (Result.quality r) \/ Result.quality r = nan.
Proof.
  intros Hex. unfold evaluateFrame.
  destruct (String.eqb_spec exercise "head") as [-> | _];
    [ apply headLogic_quality | ].
  destruct (String.eqb_spec exercise "finger") as [-> | _];
    [ apply fingerLogic_quality | ].
  destruct (String.eqb_spec exercise "hand") as [-> | _];
    [ intros H; left; exact (handLogic_quality _ _ _ H) | ].
  destruct (String.eqb_spec exercise "leg") as [-> | _];
    [ apply legLogic_quality | ].
  destruct (String.eqb_spec exercise "shoulder") as [-> | _];
    [ now destruct Hex | ].
  intros [= <-]. left. apply in_range_0.
Qed.

Lemma evaluateFrame_quality_clamped_witness :
  ("leg"%string <> "shoulder"%string
   /\ evaluateFrame RefRuntime.runtime "leg" kneeUpPose None (State.mk 3 "idle")
      = Normal (Result.mk 3 "Knee up" 100 (Some "up"%string)))
  /\ (in_range 100 \/ 100 = nan).
Proof.
  assert (H1 : "leg"%string <> "shoulder"%string) by discriminate.
  assert (H2 : evaluateFrame RefRuntime.runtime "leg" kneeUpPose None
                 (State.mk 3 "idle")
               = Normal (Result.mk 3 "Knee up" 100 (Some "up"%string)))
    by (vm_compute; reflexivity).
  split; [ split; assumption | ].
  exact (evaluateFrame_quality_clamped RefRuntime.runtime "leg" kneeUpPose
           None (State.mk 3 "idle") _ H1 H2).
Defined.

(** ** The caller's clamp *)

Lemma lex_le_antisym (a b : Z * Z * Z) : lex_le a b -> lex_le b a -> a = b.
Proof.
  destruct a as [[a1 a2] a3], b as [[b1 b2] b3]. unfold lex_le, lex_lt.
  intros [H1 | H1] [H2 | H2]; try congruence; lia.
Qed.

Lemma in_range_ranks (q : float) :
  in_range q ->
  exists r, rank q = Some r
            /\ lex_le (0, 0, 0)%Z r /\ lex_le r (1, -46, 7036874417766400)%Z.
Proof.
  intros [H0 H100]. apply leb_rank in H0, H100.
  change (rank 0) with (Some (0, 0, 0)%Z) in H0.
  change (rank 100) with (Some (1, -46, 7036874417766400)%Z) in H100.
  unfold rank_le, rank_lt, rank_eq, lex_le in *.
  destruct (rank q) as [r | ]; [ | tauto ].
  exists r. split; [ reflexivity | ].
  split; [ destruct H0 as [H0 | H0]; auto | destruct H100 as [H | H]; auto ].
Qed.

(** The caller's clamp leaves a quality that is already within the range
    as it is (up to the sign of zero): [safeQuality q] equals [q] for
    every [q] from 0 to 100. *)
Theorem safeQuality_keeps_in_range (q : float) :
  in_range q -> (safeQuality q =? q) = true.
Proof.
  intros Hq. destruct (in_range_ranks q Hq) as (rq & Hrq & Hlo & Hhi).
  apply eqb_rank. rewrite Hrq. unfold safeQuality.
  assert (Hor : rank (or_else q 0) = Some rq).
  { unfold or_else. destruct (falsy q) eqn:Hf; [ | exact Hrq ].
    apply falsy_rank in Hf. change (rank 0) with (Some (0, 0, 0)%Z).
    destruct Hf as [Hf | Hf]; congruence. }
  destruct (Math_min_rank 100 (or_else q 0) _ rq eq_refl Hor)
    as (r1 & H1 & Hsel1 & Hle1 & Hle1').
  assert (Hr1 : r1 = rq).
  { destruct Hsel1 as [-> | ->]; [ | reflexivity ].
    now apply lex_le_antisym. }
  subst r1.
  destruct (Math_max_rank 0 (Math_min 100 (or_else q 0)) _ rq eq_refl H1)
    as (r2 & H2 & Hsel2 & Hge2 & Hge2').
  assert (Hr2 : r2 = rq).
  { destruct Hsel2 as [-> | ->]; [ | reflexivity ].
    now apply lex_le_antisym. }
  subst r2. rewrite H2. cbn. reflexivity.
Qed.

Lemma safeQuality_keeps_in_range_witness :
  in_range 37.5 /\ (safeQuality 37.5 =? 37.5) = true.
Proof.
  assert (H : in_range 37.5) by (split; reflexivity).
  split; [ exact H | ].
  exact (safeQuality_keeps_in_range 37.5 H).
Defined.

(** ** The frame loop *)

Lemma evaluateFrame_rep_step (rt : Runtime) (exercise : string)
  (pose : option PoseLandmarkerResult) (hand : option HandLandmarkerResult)
  (state : State.t) (r : Result.t) :
  evaluateFrame rt exercise pose hand state = Normal r ->
  (State.rep state <= Result.rep r <= State.rep state + maxStep exercise)%Z.
Proof.
  unfold evaluateFrame, maxStep.
  repeat match goal with
    | |- context [String.eqb exercise ?id] =>
        destruct (String.eqb_spec exercise id) as [-> | _]
    end;
    cbn [String.eqb Ascii.eqb Bool.eqb];
    first [ apply headLogic_rep | apply fingerLogic_rep | apply handLogic_rep
          | apply legLogic_rep | apply shoulderLogic_rep
          | intros [= <-]; cbn; lia ].
Qed.

Lemma maxStep_pos (exercise : string) : (1 <= maxStep exercise)%Z.
Proof. unfold maxStep. destruct (String.eqb exercise "shoulder"); lia. Qed.

Lemma processFrame_step (rt : Runtime) (exercise : string)
  (s s' : Session.t) (f : Frame.t) :
  processFrame rt exercise s f = Normal s' ->
  (0 <= Session.frameCountRef s' - Session.frameCountRef s <= 1)%Z
  /\ (Session.repRef s <= Session.repRef s')%Z
  /\ (Session.repRef s' - Session.repRef s
      <= maxStep exercise
         * (Session.frameCountRef s' - Session.frameCountRef s))%Z
  /\ (Session.repCount s = Session.repRef s ->
      Session.repCount s' = Session.repRef s')
  /\ (in_range (Session.quality s) -> in_range (Session.quality s')).
Proof.
  unfold processFrame. pose proof (maxStep_pos exercise) as Hstep.
  destruct (Frame.paused f);
    [ intros [= <-]; (split; [ lia | ]); (split; [ lia | ]);
      (split; [ lia | ]); split; auto | ].
  destruct (negb (Frame.videoReady f));
    [ intros [= <-]; (split; [ lia | ]); (split; [ lia | ]);
      (split; [ lia | ]); split; auto | ].
  destruct (evaluateFrame _ _ _ _ _) as [r | ] eqn:Hr; cbn [bind];
    [ | discriminate ].
  apply evaluateFrame_rep_step in Hr. cbn [State.rep] in Hr.
  intros [= <-]. cbn.
  destruct (Z.eqb_spec (Result.rep r) (Session.repRef s)) as [He | He]; cbn;
    (split; [ lia | ]); (split; [ lia | ]); (split; [ lia | ]);
    (split; [ auto | intros _; apply safeQuality_range ]).
Qed.


(** The display follows the loop: if the displayed count equals the
    counter and the displayed quality is within 0 to 100 when the loop
    starts, the same holds after any run of frames, whatever the
    analyzers return. *)
Theorem runFrames_display_consistent (rt : Runtime) (exercise : string)
  (frames : list Frame.t) (s : Session.t) :
  Session.repCount s = Session.repRef s ->
  in_range (Session.quality s) ->
  Session.repCount (runFrames rt exercise frames s)
  = Session.repRef (runFrames rt exercise frames s)
  /\ in_range (Session.quality (runFrames rt exercise frames s)).
Proof.
  revert s. induction frames as [ | f rest IH]; intros s Hc Hq;
    cbn [runFrames].
  - split; assumption.
  - destruct (processFrame rt exercise s f) as [s' | e] eqn:Hf.
    + apply processFrame_step in Hf.
      destruct Hf as (_ & _ & _ & Hc' & Hq'). apply IH; auto.
    + split; assumption.
Qed.

Lemma runFrames_display_consistent_witness :
  (Session.repCount freshSession = Session.repRef freshSession
   /\ in_range (Session.quality freshSession))
  /\ runFrames RefRuntime.runtime "head" headSessionFrames freshSession
     = Session.mk 1 "left" 200 2 1 100 "Yaw -90.0 deg"
  /\ Session.repCount
       (runFrames RefRuntime.runtime "head" headSessionFrames freshSession)
     = Session.repRef
         (runFrames RefRuntime.runtime "head" headSessionFrames freshSession).
Proof.
  assert (H1 : Session.repCount freshSession = Session.repRef freshSession)
    by reflexivity.
  assert (H2 : in_range (Session.quality freshSession))
    by (split; reflexivity).
  split; [ split; assumption | ].
  split; [ vm_compute; reflexivity | ].
  exact (proj1 (runFrames_display_consistent RefRuntime.runtime "head"
                  headSessionFrames freshSession H1 H2)).
Defined.

(** ** The catalogue and the selected exercise *)


(** The page always has a configuration with a positive target: for every
    identifier [config] is defined; it is the catalogue entry of that
    identifier when there is one and the head entry otherwise, and its
    target count is at least 10, so progress never divides by zero. *)
Theorem config_lookup (exercise : string) :
  exists c : ExerciseConfig.t,
    config exercise = Some c
    /\ (inCatalogue exercise = true -> ExerciseConfig.id c = exercise)
    /\ (inCatalogue exercise = false -> ExerciseConfig.id c = "head"%string)
    /\ (10 <= ExerciseConfig.targetReps c)%Z.
Proof.
  unfold config, inCatalogue, EXERCISES.
  cbn [find existsb ExerciseConfig.id].
  rewrite !(String.eqb_sym _ exercise).
  repeat match goal with
    | |- context [String.eqb exercise ?id] =>
        destruct (String.eqb_spec exercise id) as [-> | ?]
    end;
    cbn; eexists; (split; [ reflexivity | ]); cbn;
    repeat split; intros; try discriminate; try reflexivity; lia.
Qed.






(** ** Authentication and routes *)

(** Token claims are never overridden by the database: a role or clinic
    the token carries is the one [AuthProvider] settles on, whatever the
    database record holds; and when the record is missing or cannot be
    read, the claims are kept as they are. *)
Theorem resolveRole_token_first (claimRole claimClinic : option string)
  (snap : RoleSnapshot) :
  (forall r, claimRole = Some r ->
             fst (resolveRole claimRole claimClinic snap) = Some r)
  /\ (forall c, claimClinic = Some c ->
                snd (resolveRole claimRole claimClinic snap) = Some c)
  /\ (snap = NoRecord \/ snap = FetchRejected ->
      resolveRole claimRole claimClinic snap = (claimRole, claimClinic)).
Proof.
  unfold resolveRole.
  repeat split.
  - intros r ->. destruct (_ || _), snap; reflexivity.
  - intros c ->. destruct (_ || _), snap; reflexivity.
  - intros [-> | ->]; destruct (_ || _); reflexivity.
Qed.

Lemma resolveRole_token_first_witness :
  resolveRole (Some "doctor"%string) None
    (RoleRecord (Some "admin"%string) (Some "clinic-7"%string))
  = (Some "doctor"%string, Some "clinic-7"%string)
  /\ fst (resolveRole (Some "doctor"%string) None
            (RoleRecord (Some "admin"%string) (Some "clinic-7"%string)))
     = Some "doctor"%string.
Proof.
  split; [ reflexivity | ].
  exact (proj1 (resolveRole_token_first (Some "doctor"%string) None
                  (RoleRecord (Some "admin"%string)
                     (Some "clinic-7"%string)))
           "doctor"%string eq_refl).
Defined.

Lemma In_guardedRoutes (p r : string) :
  In (p, r) guardedRoutes ->
  (p = "/patient"%string /\ r = "patient"%string)
  \/ (p = "/patient/session"%string /\ r = "patient"%string)
  \/ (p = "/doctor"%string /\ r = "doctor"%string)
  \/ (p = "/admin"%string /\ r = "admin"%string).
Proof.
  cbn. intros [H | [H | [H | [H | []]]]]; injection H as <- <-; tauto.
Qed.

Lemma ProtectedRoute_page (role page : string) (auth : Auth.t) (n : string) :
  ProtectedRoute [role] (Page page) auth = Page n ->
  Auth.loading auth = false
  /\ Auth.user auth <> None
  /\ Auth.role auth = Some role.
Proof.
  unfold ProtectedRoute, roleIncluded.
  destruct (Auth.loading auth); [ discriminate | ].
  destruct (Auth.user auth) as [uid | ]; cbn [negb orb]; [ | discriminate ].
  destruct (Auth.role auth) as [r | ]; cbn [truthy existsb];
    [ | discriminate ].
  destruct (negb (negb (String.eqb r ""))); cbn [orb]; [ discriminate | ].
  rewrite orb_false_r.
  destruct (String.eqb_spec r role) as [-> | ?]; cbn [negb];
    [ | discriminate ].
  intros _. repeat split; congruence.
Qed.

(** A guarded page is rendered only for its own role: whenever the route
    declared for the patient, doctor or admin page renders a page, the
    session is resolved, a user is signed in, and the user's role is the
    one the route is declared for. *)
Theorem guarded_page_only_for_its_role (pattern role : string)
  (auth : Auth.t) (n : string) :
  In (pattern, role) guardedRoutes ->
  routeElement pattern auth = Page n ->
  Auth.loading auth = false
  /\ Auth.user auth <> None
  /\ Auth.role auth = Some role.
Proof.
  intros Hin. apply In_guardedRoutes in Hin.
  destruct Hin as [[-> ->] | [[-> ->] | [[-> ->] | [-> ->]]]];
    cbn [routeElement String.eqb Ascii.eqb Bool.eqb];
    apply ProtectedRoute_page.
Qed.

Lemma guarded_page_only_for_its_role_witness :
  (In ("/doctor"%string, "doctor"%string) guardedRoutes
   /\ routeElement "/doctor"
        (Auth.mk (Some "u1"%string) (Some "doctor"%string)
           (Some "c1"%string) false)
      = Page "DoctorPage")
  /\ false = false
  /\ Some "u1"%string <> None
  /\ Some "doctor"%string = Some "doctor"%string.
Proof.
  assert (H1 : In ("/doctor"%string, "doctor"%string) guardedRoutes)
    by (cbn; tauto).
  assert (H2 : routeElement "/doctor"
                 (Auth.mk (Some "u1"%string) (Some "doctor"%string)
                    (Some "c1"%string) false)
               = Page "DoctorPage") by reflexivity.
  split; [ split; assumption | ].
  exact (guarded_page_only_for_its_role "/doctor" "doctor" _ _ H1 H2).
Defined.

(** A user whose token carries one of the three roles lands on that
    role's page, whatever the database record holds: after the
    authentication event the home redirect and the login page's redirect
    name the same route, and that route renders its page. *)
Theorem signed_in_lands_on_own_page (prev : Auth.t) (uid role : string)
  (claimClinic : option string) (snap : RoleSnapshot) :
  In role Roles ->
  exists (target page : string),
    HomeRedirect
      (onAuthStateChanged prev (Some uid)
         (TokenClaims (Some role) claimClinic) snap)
    = Navigate target
    /\ LoginPage
         (onAuthStateChanged prev (Some uid)
            (TokenClaims (Some role) claimClinic) snap)
       = Navigate target
    /\ In (target, role) guardedRoutes
    /\ routeElement target
         (onAuthStateChanged prev (Some uid)
            (TokenClaims (Some role) claimClinic) snap)
       = Page page.
Proof.
  intros Hrole.
  assert (Hauth : exists c,
             onAuthStateChanged prev (Some uid)
               (TokenClaims (Some role) claimClinic) snap
             = Auth.mk (Some uid) (Some role) c false).
  { unfold onAuthStateChanged, resolveRole.
    destruct (_ || _), snap; cbn; eauto. }
  destruct Hauth as [c ->].
  destruct Hrole as [<- | [<- | [<- | []]]].
  - exists "/admin"%string, "AdminPage"%string. cbn. tauto.
  - exists "/doctor"%string, "DoctorPage"%string. cbn. tauto.
  - exists "/patient"%string, "PatientPage"%string. cbn. tauto.
Qed.

Lemma signed_in_lands_on_own_page_witness :
  In "patient"%string Roles
  /\ exists (target page : string),
       HomeRedirect
         (onAuthStateChanged initialAuth (Some "u1"%string)
            (TokenClaims (Some "patient"%string) None)
            (RoleRecord (Some "admin"%string) (Some "c1"%string)))
       = Navigate target
       /\ LoginPage
            (onAuthStateChanged initialAuth (Some "u1"%string)
               (TokenClaims (Some "patient"%string) None)
               (RoleRecord (Some "admin"%string) (Some "c1"%string)))
          = Navigate target
       /\ In (target, "patient"%string) guardedRoutes
       /\ routeElement target
            (onAuthStateChanged initialAuth (Some "u1"%string)
               (TokenClaims (Some "patient"%string) None)
               (RoleRecord (Some "admin"%string) (Some "c1"%string)))
          = Page page.
Proof.
  assert (H : In "patient"%string Roles) by (cbn; tauto).
  split; [ exact H | ].
  exact (signed_in_lands_on_own_page initialAuth "u1" "patient" None
           (RoleRecord (Some "admin"%string) (Some "c1"%string)) H).
Defined.

(** After a sign-out event no guarded page is rendered: whatever the
    state before and whatever a token or database read would have given,
    the role and the clinic are cleared, every guarded route and the home
    route redirect to the login route, and the login page shows its
    form. *)
Theorem signed_out_sees_login (prev : Auth.t) (token : TokenResult)
  (snap : RoleSnapshot) (pattern role : string) :
  In (pattern, role) guardedRoutes ->
  onAuthStateChanged prev None token snap = Auth.mk None None None false
  /\ routeElement pattern (onAuthStateChanged prev None token snap)
     = Navigate "/login"
  /\ routeElement "/" (onAuthStateChanged prev None token snap)
     = Navigate "/login"
  /\ routeElement "/login" (onAuthStateChanged prev None token snap)
     = Page "LoginPage".
Proof.
  intros Hin. apply In_guardedRoutes in Hin.
  destruct Hin as [[-> ->] | [[-> ->] | [[-> ->] | [-> ->]]]];
    repeat split; reflexivity.
Qed.

Lemma signed_out_sees_login_witness :
  In ("/admin"%string, "admin"%string) guardedRoutes
  /\ routeElement "/admin"
       (onAuthStateChanged
          (Auth.mk (Some "u1"%string) (Some "admin"%string)
             (Some "c1"%string) false)
          None TokenRejected NoRecord)
     = Navigate "/login".
Proof.
  assert (H : In ("/admin"%string, "admin"%string) guardedRoutes)
    by (cbn; tauto).
  split; [ exact H | ].
  exact (proj1 (proj2 (signed_out_sees_login
                         (Auth.mk (Some "u1"%string) (Some "admin"%string)
                            (Some "c1"%string) false)
                         TokenRejected NoRecord "/admin" "admin" H))).
Defined.

(** ** The latest session of each exercise *)

(** [a < b] and not [a < c] exclude [b < c]. *)
Lemma ltb_not_ltb_trans (a b c : float) :
  (a <? b) = true -> (a <? c) = false -> (b <? c) = false.
Proof.
  intros Hab Hac. apply not_true_is_false. intros Hbc.
  apply ltb_rank in Hab, Hbc. apply ltb_false_rank in Hac.
  destruct (rank a) as [[[? ?] ?]|], (rank b) as [[[? ?] ?]|],
    (rank c) as [[[? ?] ?]|]; cbn in *; try tauto.
  apply Hac. lia.
Qed.

Lemma map_get_set_same (key : string) (row : SessionRecord.t) (m : RecordMap) :
  map_get key (map_set key row m) = Some row.
Proof.
  induction m as [ | [k v] rest IH]; cbn.
  - now rewrite String.eqb_refl.
  - destruct (String.eqb_spec k key) as [-> | Hk]; cbn.
    + now rewrite String.eqb_refl.
    + destruct (String.eqb_spec k key); [ contradiction | exact IH ].
Qed.

Lemma map_get_set_other (key key' : string) (row : SessionRecord.t)
  (m : RecordMap) :
  key' <> key -> map_get key' (map_set key row m) = map_get key' m.
Proof.
  intros Hne. induction m as [ | [k v] rest IH]; cbn.
  - destruct (String.eqb_spec key key'); [ congruence | reflexivity ].
  - destruct (String.eqb_spec k key) as [-> | Hk]; cbn.
    + destruct (String.eqb_spec key key'); [ congruence | reflexivity ].
    + destruct (String.eqb_spec k key'); [ reflexivity | exact IH ].
Qed.

Lemma latestStep_latestOf (seen : list SessionRecord.t) (m : RecordMap)
  (row : SessionRecord.t) :
  latestOf seen m -> latestOf (seen ++ [row]) (latestStep m row).
Proof.
  intros [Hentries Hcover]. unfold latestStep.
  set (key := SessionRecord.exerciseId row).
  destruct (inCatalogue key) eqn:Hcat; cbn [negb].
  2:{ (* a row outside the catalogue is skipped *)
      split.
      - intros k r Hr. destruct (Hentries k r Hr) as (Hin & Hk & Hc & Hmax).
        repeat split; auto.
        + apply in_or_app. now left.
        + intros r' Hin' Hk'. apply in_app_or in Hin'.
          destruct Hin' as [Hin' | [<- | []]]; [ now apply Hmax | ].
          fold key in Hk'. congruence.
      - intros r' Hin' Hc'. apply in_app_or in Hin'.
        destruct Hin' as [Hin' | [<- | []]]; [ now apply Hcover | ].
        fold key in Hc'. congruence. }
  assert (Hreplace :
            (forall cur, map_get key m = Some cur ->
                         (SessionRecord.timestamp cur
                          <? SessionRecord.timestamp row) = true) ->
            latestOf (seen ++ [row]) (map_set key row m)).
  { intros Hlater. split.
    - intros k r Hr.
      destruct (String.eqb_spec k key) as [-> | Hk].
      + rewrite map_get_set_same in Hr. injection Hr as <-.
        repeat split; auto.
        * apply in_or_app. right. now left.
        * intros r' Hin' Hk'. apply in_app_or in Hin'.
          destruct Hin' as [Hin' | [<- | []]].
          -- destruct (map_get key m) as [cur | ] eqn:Hcur.
             ++ destruct (Hentries key cur Hcur) as (_ & _ & _ & Hmax).
                apply (ltb_not_ltb_trans (SessionRecord.timestamp cur));
                  [ now apply Hlater | now apply Hmax ].
             ++ exfalso. apply (Hcover r' Hin'); [ now rewrite Hk' | ].
                now rewrite Hk'.
          -- apply not_true_is_false. intros H. apply ltb_rank in H.
             destruct (rank (SessionRecord.timestamp row)) as [[[? ?] ?]|];
               cbn in H; [ lia | exact H ].
      + rewrite (map_get_set_other key k row m Hk) in Hr.
        destruct (Hentries k r Hr) as (Hin & Hkr & Hc & Hmax).
        repeat split; auto.
        * apply in_or_app. now left.
        * intros r' Hin' Hk'. apply in_app_or in Hin'.
          destruct Hin' as [Hin' | [<- | []]]; [ now apply Hmax | ].
          fold key in Hk'. congruence.
    - intros r' Hin' Hc'.
      destruct (String.eqb_spec (SessionRecord.exerciseId r') key)
        as [-> | Hk].
      + rewrite map_get_set_same. discriminate.
      + rewrite (map_get_set_other key _ row m Hk).
        apply in_app_or in Hin'.
        destruct Hin' as [Hin' | [<- | []]]; [ now apply Hcover | ].
        now destruct Hk. }
  destruct (map_get key m) as [cur | ] eqn:Hcur.
  - unfold gtb.
    destruct (SessionRecord.timestamp cur <? SessionRecord.timestamp row)
      eqn:Hlt.
    + apply Hreplace. intros cur' [= <-]. exact Hlt.
    + (* the entry stays: the new row is not later than it *)
      split.
      * intros k r Hr. destruct (Hentries k r Hr) as (Hin & Hk & Hc & Hmax).
        repeat split; auto.
        -- apply in_or_app. now left.
        -- intros r' Hin' Hk'. apply in_app_or in Hin'.
           destruct Hin' as [Hin' | [<- | []]]; [ now apply Hmax | ].
           assert (Hkk : k = key) by (unfold key; congruence).
           rewrite Hkk, Hcur in Hr. injection Hr as <-. exact Hlt.
      * intros r' Hin' Hc'. apply in_app_or in Hin'.
        destruct Hin' as [Hin' | [<- | []]]; [ now apply Hcover | ].
        fold key. rewrite Hcur. discriminate.
  - apply Hreplace. intros cur' H. discriminate H.
Qed.

Lemma fold_latestOf (rows seen : list SessionRecord.t) (m : RecordMap) :
  latestOf seen m -> latestOf (seen ++ rows) (fold_left latestStep rows m).
Proof.
  revert seen m. induction rows as [ | row rest IH]; intros seen m H.
  - now rewrite app_nil_r.
  - cbn [fold_left].
    replace (seen ++ row :: rest) with ((seen ++ [row]) ++ rest)
      by now rewrite <- app_assoc.
    apply IH. now apply latestStep_latestOf.
Qed.

(** [latestByExercise] keeps, for each catalogue exercise that occurs in
    the history, one of its rows that no other row of that exercise is
    later than; rows of unknown exercises get no entry. *)
Theorem latestByExercise_keeps_latest (sessionHistory : list SessionRecord.t) :
  (forall row,
      In row sessionHistory ->
      inCatalogue (SessionRecord.exerciseId row) = true ->
      exists kept,
        map_get (SessionRecord.exerciseId row)
          (latestByExercise sessionHistory) = Some kept)
  /\ (forall key kept,
        map_get key (latestByExercise sessionHistory) = Some kept ->
        In kept sessionHistory
        /\ SessionRecord.exerciseId kept = key
        /\ inCatalogue key = true
        /\ forall row, In row sessionHistory ->
                       SessionRecord.exerciseId row = key ->
                       (SessionRecord.timestamp kept
                        <? SessionRecord.timestamp row) = false).
Proof.
  assert (H0 : latestOf [] []).
  { split; [ intros key r H; discriminate H | intros r' [] ]. }
  pose proof (fold_latestOf sessionHistory [] [] H0) as [Hentries Hcover].
  cbn [app] in *. fold (latestByExercise sessionHistory) in *.
  split.
  - intros row Hin Hc. specialize (Hcover row Hin Hc).
    destruct (map_get _ _) as [kept | ]; [ eauto | now destruct Hcover ].
  - exact Hentries.
Qed.

Lemma latestByExercise_keeps_latest_witness :
  map_get "head"%string (latestByExercise sampleHistory)
  = Some (sessionAt "head"%string 3000)
  /\ map_get "yoga"%string (latestByExercise sampleHistory) = None
  /\ (In (sessionAt "head"%string 3000) sampleHistory
      /\ SessionRecord.exerciseId (sessionAt "head"%string 3000) = "head"%string
      /\ inCatalogue "head"%string = true
      /\ forall row, In row sampleHistory ->
                     SessionRecord.exerciseId row = "head"%string ->
                     (SessionRecord.timestamp (sessionAt "head"%string 3000)
                      <? SessionRecord.timestamp row) = false).
Proof.
  assert (H : map_get "head"%string (latestByExercise sampleHistory)
              = Some (sessionAt "head"%string 3000)) by (vm_compute; reflexivity).
  split; [ exact H | ].
  split; [ vm_compute; reflexivity | ].
  exact (proj2 (latestByExercise_keeps_latest sampleHistory) "head"%string _ H).
Defined.

(** ** Account creation *)



